(** * H5 (Three-Wire UART) transport: a shallow embedding of
      [driver/src/transport/h5_transport.cpp] and its properties.

    Conventions.
    - A [uint8_t] is a [Z] in [0, 256); the wrap-around of [++] is written
      out.  An expression such as [seqNum + 1] is computed in C++ after
      integer promotion, hence without wrap-around.
    - Member functions take the object as an explicit [H5Transport] record
      and return the updated record together with the list of externally
      visible effects, in program order.
    - Dereferencing a null pointer and indexing a vector out of range are
      undefined in C++; they are modelled as explicit faults.
    - Threads interleave at blocking calls: what the other threads do while
      a thread is blocked in [wait] / [wait_for] is an explicit argument of
      the blocked function.  The text given to the log sink is left out;
      the packet counters that [logPacket] maintains are kept. *)

From Stdlib Require Import ZArith List Bool Lia.
From Stdlib Require String Ascii DecimalString.
Import ListNotations.
Open Scope Z_scope.

(** ** Types *)

Definition bytes := list Z.

Inductive h5_state_t :=
| STATE_START
| STATE_RESET
| STATE_UNINITIALIZED
| STATE_INITIALIZED
| STATE_ACTIVE
| STATE_FAILED
| STATE_UNKNOWN.

Definition h5_state_eqb (a b : h5_state_t) : bool :=
  match a, b with
  | STATE_START, STATE_START
  | STATE_RESET, STATE_RESET
  | STATE_UNINITIALIZED, STATE_UNINITIALIZED
  | STATE_INITIALIZED, STATE_INITIALIZED
  | STATE_ACTIVE, STATE_ACTIVE
  | STATE_FAILED, STATE_FAILED
  | STATE_UNKNOWN, STATE_UNKNOWN => true
  | _, _ => false
  end.

Inductive control_pkt_type :=
| CONTROL_PKT_RESET
| CONTROL_PKT_ACK
| CONTROL_PKT_SYNC
| CONTROL_PKT_SYNC_RESPONSE
| CONTROL_PKT_SYNC_CONFIG
| CONTROL_PKT_SYNC_CONFIG_RESPONSE.

Inductive sd_rpc_app_status_t :=
| PKT_SEND_MAX_RETRIES_REACHED
| PKT_UNEXPECTED
| PKT_ENCODE_ERROR
| PKT_DECODE_ERROR
| PKT_SEND_ERROR
| IO_RESOURCES_UNAVAILABLE
| RESET_PERFORMED
| CONNECTION_ACTIVE.

Inductive nrf_error :=
| NRF_SUCCESS
| NRF_ERROR_INTERNAL
| NRF_ERROR_INVALID_STATE
| NRF_ERROR_TIMEOUT
| NRF_ERROR_OTHER (code : Z).

(** Modelled from the spec: [h5_pkt_type_t] is declared in [h5.h], which is
    not part of the sources at hand.  The packet type is the 4-bit code of
    header byte 1; the named codes follow the packet-type table of the
    specification. *)
Definition h5_pkt_type_t := Z.
Definition ACK_PACKET : h5_pkt_type_t := 0.
Definition HCI_COMMAND_PACKET : h5_pkt_type_t := 1.
Definition ACL_DATA_PACKET : h5_pkt_type_t := 2.
Definition SYNC_DATA_PACKET : h5_pkt_type_t := 3.
Definition HCI_EVENT_PACKET : h5_pkt_type_t := 4.
Definition RESET_PACKET : h5_pkt_type_t := 5.
Definition VENDOR_SPECIFIC_PACKET : h5_pkt_type_t := 9.
Definition LINK_CONTROL_PACKET : h5_pkt_type_t := 15.

(** The byte patterns of the link-control messages, as tabulated in the
    comment that opens the source file. *)
Definition syncFirstByte : Z := 0x01.
Definition syncSecondByte : Z := 0x7E.
Definition syncRspFirstByte : Z := 0x02.
Definition syncRspSecondByte : Z := 0x7D.
Definition syncConfigFirstByte : Z := 0x03.
Definition syncConfigSecondByte : Z := 0xFC.
Definition syncConfigRspFirstByte : Z := 0x04.
Definition syncConfigRspSecondByte : Z := 0x7B.

Definition PACKET_RETRANSMISSIONS : Z := 4.
Definition NON_ACTIVE_STATE_TIMEOUT : Z := 250.
Definition RESET_WAIT_DURATION : Z := 300.

(** ** Codecs of [slip.h] and [h5.h] *)

Module Slip.

(** Modelled from the spec: [slip_encode] lives in [slip.h]/[slip.cpp], not
    part of the sources at hand.  A delimiter [0xC0] precedes and follows
    the body; inside, [0xC0] becomes [0xDB 0xDC] and [0xDB] becomes
    [0xDB 0xDD]. *)
Definition escape (b : Z) : bytes :=
  if b =? 0xC0 then [0xDB; 0xDC]
  else if b =? 0xDB then [0xDB; 0xDD]
  else [b].

Definition slip_encode (payload : bytes) : bytes :=
  [0xC0] ++ flat_map escape payload ++ [0xC0].

(** Modelled from the spec: [slip_decode] accepts a frame with or without
    its delimiters and reverses the escape rules; it fails when [0xDB] is
    followed by anything but [0xDC] or [0xDD], or is the final byte. *)
Fixpoint slip_decode (frame : bytes) : option bytes :=
  match frame with
  | [] => Some []
  | b :: rest =>
      if b =? 0xC0 then slip_decode rest
      else if b =? 0xDB then
        match rest with
        | e :: rest' =>
            if e =? 0xDC then option_map (cons 0xC0) (slip_decode rest')
            else if e =? 0xDD then option_map (cons 0xDB) (slip_decode rest')
            else None
        | [] => None
        end
      else option_map (cons b) (slip_decode rest)
  end.

End Slip.

Module H5.

Definition b2z (b : bool) : Z := if b then 1 else 0.

(** Modelled from the spec: [h5_encode] lives in [h5.h]/[h5.cpp], not part
    of the sources at hand.  Four header bytes (ack in bits 0..2 of byte 0,
    integrity flag in bit 3, reliable flag in bit 4, seq in bits 5..7; type
    in the low nibble of byte 1; a 12-bit length; a checksum that makes the
    four bytes sum to 0 modulo 256), then the payload. *)
Definition h5_encode (payload : bytes) (seq_num ack_num : Z)
    (reliable_packet crc_present : bool) (packet_type : Z) : bytes :=
  let len := Z.of_nat (length payload) in
  let b0 := Z.lor (Z.lor (Z.lor (Z.land ack_num 7)
                                (Z.shiftl (b2z crc_present) 3))
                         (Z.shiftl (b2z reliable_packet) 4))
                  (Z.shiftl (Z.land seq_num 7) 5) in
  let b1 := Z.lor (Z.land packet_type 0x0F) (Z.shiftl (Z.land len 0x0F) 4) in
  let b2 := Z.land (Z.shiftr len 4) 0xFF in
  let b3 := (- (b0 + b1 + b2)) mod 256 in
  [b0; b1; b2; b3] ++ payload.

Record decoded := {
  d_payload : bytes;
  d_seq_num : Z;
  d_ack_num : Z;
  d_reliable : bool;
  d_type : Z
}.

(** Modelled from the spec: [h5_decode] fails on fewer than 4 bytes, on a
    bad header checksum, on a declared length that differs from the number
    of bytes after the header, and on a set integrity flag. *)
Definition h5_decode (pkt : bytes) : option decoded :=
  match pkt with
  | b0 :: b1 :: b2 :: b3 :: payload =>
      if negb ((b0 + b1 + b2 + b3) mod 256 =? 0) then None
      else if Z.testbit b0 3 then None
      else if negb (Z.lor (Z.shiftr b1 4) (Z.shiftl b2 4)
                    =? Z.of_nat (length payload)) then None
      else Some {| d_payload := payload;
                   d_seq_num := Z.land (Z.shiftr b0 5) 7;
                   d_ack_num := Z.land b0 7;
                   d_reliable := Z.testbit b0 4;
                   d_type := Z.land b1 0x0F |}
  | _ => None
  end.

End H5.

(** The parts of [h5.h], [slip.h] and [h5_transport.h] that the transport
    calls but that are not among the sources: the two codecs and the
    configuration byte carried by the SYNC-CONFIG messages.  The transport
    is verified against this interface; [spec_codecs] instantiates it with
    the codecs modelled from the specification. *)
Class Codecs := {
  slip_encode : bytes -> bytes;
  slip_decode : bytes -> option bytes;
  h5_encode : bytes -> Z -> Z -> bool -> bool -> h5_pkt_type_t -> bytes;
  h5_decode : bytes -> option H5.decoded;
  syncConfigField : Z
}.

#[export] Instance spec_codecs : Codecs := {|
  slip_encode := Slip.slip_encode;
  slip_decode := Slip.slip_decode;
  h5_encode := H5.h5_encode;
  h5_decode := H5.h5_decode;
  syncConfigField := 0x11
|}.

(** ** Exit criteria *)

(** Modelled from the spec: the exit-criteria classes are declared in
    [h5_transport.h], not part of the sources at hand.  One record of
    boolean flags per state, as listed in the state table; every record
    has the flags [ioResourceError] and [close] of the base class. *)
Record StartExitCriterias := {
  start_ioResourceError : bool;
  start_close : bool;
  isOpened : bool
}.

Record ResetExitCriterias := {
  reset_ioResourceError : bool;
  reset_close : bool;
  resetSent : bool
}.

Record UninitializedExitCriterias := {
  uninit_ioResourceError : bool;
  uninit_close : bool;
  syncSent : bool;
  syncRspReceived : bool
}.

Record InitializedExitCriterias := {
  init_ioResourceError : bool;
  init_close : bool;
  syncConfigSent : bool;
  syncConfigRspReceived : bool;
  syncConfigReceived : bool;
  syncConfigRspSent : bool
}.

Record ActiveExitCriterias := {
  active_ioResourceError : bool;
  active_close : bool;
  syncReceived : bool;
  irrecoverableSyncError : bool
}.

(** A pointer to the base class [ExitCriterias]: the dynamic type is the
    constructor. *)
Inductive ExitCriterias :=
| OfStart (c : StartExitCriterias)
| OfReset (c : ResetExitCriterias)
| OfUninitialized (c : UninitializedExitCriterias)
| OfInitialized (c : InitializedExitCriterias)
| OfActive (c : ActiveExitCriterias).

(** Modelled from the spec: [reset] clears every flag of the record
    (entering a state resets its flags). *)
Definition reset_Start : StartExitCriterias :=
  {| start_ioResourceError := false; start_close := false; isOpened := false |}.
Definition reset_Reset : ResetExitCriterias :=
  {| reset_ioResourceError := false; reset_close := false; resetSent := false |}.
Definition reset_Uninitialized : UninitializedExitCriterias :=
  {| uninit_ioResourceError := false; uninit_close := false;
     syncSent := false; syncRspReceived := false |}.
Definition reset_Initialized : InitializedExitCriterias :=
  {| init_ioResourceError := false; init_close := false;
     syncConfigSent := false; syncConfigRspReceived := false;
     syncConfigReceived := false; syncConfigRspSent := false |}.
Definition reset_Active : ActiveExitCriterias :=
  {| active_ioResourceError := false; active_close := false;
     syncReceived := false; irrecoverableSyncError := false |}.

(** Modelled from the spec: [isFullfilled] holds when the state can be
    left: on [ioResourceError] or [close], or when the handshake flags of
    the state are all set (for ACTIVE, when a SYNC or a sync error was
    seen). *)
Definition isFullfilled (c : ExitCriterias) : bool :=
  match c with
  | OfStart c => start_ioResourceError c || start_close c || isOpened c
  | OfReset c => reset_ioResourceError c || reset_close c || resetSent c
  | OfUninitialized c =>
      uninit_ioResourceError c || uninit_close c
      || (syncSent c && syncRspReceived c)
  | OfInitialized c =>
      init_ioResourceError c || init_close c
      || (syncConfigSent c && syncConfigRspReceived c
          && syncConfigReceived c && syncConfigRspSent c)
  | OfActive c =>
      active_ioResourceError c || active_close c
      || syncReceived c || irrecoverableSyncError c
  end.

(** ** The transport object *)

Record H5Transport := {
  seqNum : Z;
  ackNum : Z;
  c0Found : bool;
  unprocessedData : bytes;
  lastPacket : bytes;
  incomingPacketCount : Z;
  outgoingPacketCount : Z;
  errorPacketCount : Z;
  currentState : h5_state_t;
  runStateMachine : bool;
  retransmissionTimeout : Z;
  (* the objects that [exitCriterias] points to *)
  ecStart : StartExitCriterias;
  ecReset : ResetExitCriterias;
  ecUninitialized : UninitializedExitCriterias;
  ecInitialized : InitializedExitCriterias;
  ecActive : ActiveExitCriterias
}.

(** Externally visible effects. *)
Inductive event :=
| LowerSend (frame : bytes)            (* nextTransportLayer->send *)
| DataCallback (payload : bytes)       (* dataCallback *)
| StatusCallback (code : sd_rpc_app_status_t)
| SyncNotify                           (* syncWaitCondition.notify_all *)
| AckNotify                            (* ackWaitCondition.notify_all *)
| StateNotify                          (* stateWaitCondition.notify_all *)
| AckWait (timeout : Z)                (* ackWaitCondition.wait_for *)
| SyncWait                             (* syncWaitCondition.wait *)
| SyncWaitFor (timeout : Z)            (* syncWaitCondition.wait_for *)
| ProcessPacket (packet : bytes).      (* dataHandler calls processPacket *)

Inductive fault :=
| NullDereference
| OutOfRange
| BadFunctionCall.

Inductive outcome (A : Type) :=
| Done (a : A) (trace : list event)
| Fault (f : fault) (trace : list event).
Arguments Done {A} a trace.
Arguments Fault {A} f trace.

(** Sequencing of effectful steps: traces are concatenated and a fault
    stops the computation. *)
Definition bind {A B : Type} (m : outcome A) (k : A -> outcome B) : outcome B :=
  match m with
  | Done a tr =>
      match k a with
      | Done b tr' => Done b (tr ++ tr')
      | Fault f tr' => Fault f (tr ++ tr')
      end
  | Fault f tr => Fault f tr
  end.

Definition ret {A : Type} (a : A) : outcome A := Done a [].
Definition emit {A : Type} (a : A) (e : event) : outcome A := Done a [e].

Notation "x <- m ;; k" := (bind m (fun x => k))
  (at level 61, m at next level, right associativity).

(** [exitCriterias[state]]: the map holds an entry for five states
    ([setupStateMachine]); [operator[]] yields a null pointer for the
    others. *)
Definition exitCriterias (t : H5Transport) (state : h5_state_t)
  : option ExitCriterias :=
  match state with
  | STATE_START => Some (OfStart (ecStart t))
  | STATE_RESET => Some (OfReset (ecReset t))
  | STATE_UNINITIALIZED => Some (OfUninitialized (ecUninitialized t))
  | STATE_INITIALIZED => Some (OfInitialized (ecInitialized t))
  | STATE_ACTIVE => Some (OfActive (ecActive t))
  | STATE_FAILED | STATE_UNKNOWN => None
  end.

(** [dynamic_cast<ActiveExitCriterias*>(p)]: null unless [p] points to an
    object of that class. *)
Definition cast_Active (p : option ExitCriterias) : option ActiveExitCriterias :=
  match p with Some (OfActive c) => Some c | _ => None end.

Definition cast_Uninitialized (p : option ExitCriterias)
  : option UninitializedExitCriterias :=
  match p with Some (OfUninitialized c) => Some c | _ => None end.

Definition cast_Initialized (p : option ExitCriterias)
  : option InitializedExitCriterias :=
  match p with Some (OfInitialized c) => Some c | _ => None end.

Definition cast_Start (p : option ExitCriterias) : option StartExitCriterias :=
  match p with Some (OfStart c) => Some c | _ => None end.

Definition cast_Reset (p : option ExitCriterias) : option ResetExitCriterias :=
  match p with Some (OfReset c) => Some c | _ => None end.

(** Field updates. *)
Definition set_seqNum (v : Z) (t : H5Transport) : H5Transport :=
  {| seqNum := v;
     ackNum := ackNum t;
     c0Found := c0Found t;
     unprocessedData := unprocessedData t;
     lastPacket := lastPacket t;
     incomingPacketCount := incomingPacketCount t;
     outgoingPacketCount := outgoingPacketCount t;
     errorPacketCount := errorPacketCount t;
     currentState := currentState t;
     runStateMachine := runStateMachine t;
     retransmissionTimeout := retransmissionTimeout t;
     ecStart := ecStart t;
     ecReset := ecReset t;
     ecUninitialized := ecUninitialized t;
     ecInitialized := ecInitialized t;
     ecActive := ecActive t |}.

Definition set_ackNum (v : Z) (t : H5Transport) : H5Transport :=
  {| seqNum := seqNum t;
     ackNum := v;
     c0Found := c0Found t;
     unprocessedData := unprocessedData t;
     lastPacket := lastPacket t;
     incomingPacketCount := incomingPacketCount t;
     outgoingPacketCount := outgoingPacketCount t;
     errorPacketCount := errorPacketCount t;
     currentState := currentState t;
     runStateMachine := runStateMachine t;
     retransmissionTimeout := retransmissionTimeout t;
     ecStart := ecStart t;
     ecReset := ecReset t;
     ecUninitialized := ecUninitialized t;
     ecInitialized := ecInitialized t;
     ecActive := ecActive t |}.

Definition set_c0Found (v : bool) (t : H5Transport) : H5Transport :=
  {| seqNum := seqNum t;
     ackNum := ackNum t;
     c0Found := v;
     unprocessedData := unprocessedData t;
     lastPacket := lastPacket t;
     incomingPacketCount := incomingPacketCount t;
     outgoingPacketCount := outgoingPacketCount t;
     errorPacketCount := errorPacketCount t;
     currentState := currentState t;
     runStateMachine := runStateMachine t;
     retransmissionTimeout := retransmissionTimeout t;
     ecStart := ecStart t;
     ecReset := ecReset t;
     ecUninitialized := ecUninitialized t;
     ecInitialized := ecInitialized t;
     ecActive := ecActive t |}.

Definition set_unprocessedData (v : bytes) (t : H5Transport) : H5Transport :=
  {| seqNum := seqNum t;
     ackNum := ackNum t;
     c0Found := c0Found t;
     unprocessedData := v;
     lastPacket := lastPacket t;
     incomingPacketCount := incomingPacketCount t;
     outgoingPacketCount := outgoingPacketCount t;
     errorPacketCount := errorPacketCount t;
     currentState := currentState t;
     runStateMachine := runStateMachine t;
     retransmissionTimeout := retransmissionTimeout t;
     ecStart := ecStart t;
     ecReset := ecReset t;
     ecUninitialized := ecUninitialized t;
     ecInitialized := ecInitialized t;
     ecActive := ecActive t |}.

Definition set_lastPacket (v : bytes) (t : H5Transport) : H5Transport :=
  {| seqNum := seqNum t;
     ackNum := ackNum t;
     c0Found := c0Found t;
     unprocessedData := unprocessedData t;
     lastPacket := v;
     incomingPacketCount := incomingPacketCount t;
     outgoingPacketCount := outgoingPacketCount t;
     errorPacketCount := errorPacketCount t;
     currentState := currentState t;
     runStateMachine := runStateMachine t;
     retransmissionTimeout := retransmissionTimeout t;
     ecStart := ecStart t;
     ecReset := ecReset t;
     ecUninitialized := ecUninitialized t;
     ecInitialized := ecInitialized t;
     ecActive := ecActive t |}.

Definition set_incomingPacketCount (v : Z) (t : H5Transport) : H5Transport :=
  {| seqNum := seqNum t;
     ackNum := ackNum t;
     c0Found := c0Found t;
     unprocessedData := unprocessedData t;
     lastPacket := lastPacket t;
     incomingPacketCount := v;
     outgoingPacketCount := outgoingPacketCount t;
     errorPacketCount := errorPacketCount t;
     currentState := currentState t;
     runStateMachine := runStateMachine t;
     retransmissionTimeout := retransmissionTimeout t;
     ecStart := ecStart t;
     ecReset := ecReset t;
     ecUninitialized := ecUninitialized t;
     ecInitialized := ecInitialized t;
     ecActive := ecActive t |}.

Definition set_outgoingPacketCount (v : Z) (t : H5Transport) : H5Transport :=
  {| seqNum := seqNum t;
     ackNum := ackNum t;
     c0Found := c0Found t;
     unprocessedData := unprocessedData t;
     lastPacket := lastPacket t;
     incomingPacketCount := incomingPacketCount t;
     outgoingPacketCount := v;
     errorPacketCount := errorPacketCount t;
     currentState := currentState t;
     runStateMachine := runStateMachine t;
     retransmissionTimeout := retransmissionTimeout t;
     ecStart := ecStart t;
     ecReset := ecReset t;
     ecUninitialized := ecUninitialized t;
     ecInitialized := ecInitialized t;
     ecActive := ecActive t |}.

Definition set_errorPacketCount (v : Z) (t : H5Transport) : H5Transport :=
  {| seqNum := seqNum t;
     ackNum := ackNum t;
     c0Found := c0Found t;
     unprocessedData := unprocessedData t;
     lastPacket := lastPacket t;
     incomingPacketCount := incomingPacketCount t;
     outgoingPacketCount := outgoingPacketCount t;
     errorPacketCount := v;
     currentState := currentState t;
     runStateMachine := runStateMachine t;
     retransmissionTimeout := retransmissionTimeout t;
     ecStart := ecStart t;
     ecReset := ecReset t;
     ecUninitialized := ecUninitialized t;
     ecInitialized := ecInitialized t;
     ecActive := ecActive t |}.

Definition set_currentState (v : h5_state_t) (t : H5Transport) : H5Transport :=
  {| seqNum := seqNum t;
     ackNum := ackNum t;
     c0Found := c0Found t;
     unprocessedData := unprocessedData t;
     lastPacket := lastPacket t;
     incomingPacketCount := incomingPacketCount t;
     outgoingPacketCount := outgoingPacketCount t;
     errorPacketCount := errorPacketCount t;
     currentState := v;
     runStateMachine := runStateMachine t;
     retransmissionTimeout := retransmissionTimeout t;
     ecStart := ecStart t;
     ecReset := ecReset t;
     ecUninitialized := ecUninitialized t;
     ecInitialized := ecInitialized t;
     ecActive := ecActive t |}.

Definition set_runStateMachine (v : bool) (t : H5Transport) : H5Transport :=
  {| seqNum := seqNum t;
     ackNum := ackNum t;
     c0Found := c0Found t;
     unprocessedData := unprocessedData t;
     lastPacket := lastPacket t;
     incomingPacketCount := incomingPacketCount t;
     outgoingPacketCount := outgoingPacketCount t;
     errorPacketCount := errorPacketCount t;
     currentState := currentState t;
     runStateMachine := v;
     retransmissionTimeout := retransmissionTimeout t;
     ecStart := ecStart t;
     ecReset := ecReset t;
     ecUninitialized := ecUninitialized t;
     ecInitialized := ecInitialized t;
     ecActive := ecActive t |}.

Definition set_ecStart (v : StartExitCriterias) (t : H5Transport) : H5Transport :=
  {| seqNum := seqNum t;
     ackNum := ackNum t;
     c0Found := c0Found t;
     unprocessedData := unprocessedData t;
     lastPacket := lastPacket t;
     incomingPacketCount := incomingPacketCount t;
     outgoingPacketCount := outgoingPacketCount t;
     errorPacketCount := errorPacketCount t;
     currentState := currentState t;
     runStateMachine := runStateMachine t;
     retransmissionTimeout := retransmissionTimeout t;
     ecStart := v;
     ecReset := ecReset t;
     ecUninitialized := ecUninitialized t;
     ecInitialized := ecInitialized t;
     ecActive := ecActive t |}.

Definition set_ecReset (v : ResetExitCriterias) (t : H5Transport) : H5Transport :=
  {| seqNum := seqNum t;
     ackNum := ackNum t;
     c0Found := c0Found t;
     unprocessedData := unprocessedData t;
     lastPacket := lastPacket t;
     incomingPacketCount := incomingPacketCount t;
     outgoingPacketCount := outgoingPacketCount t;
     errorPacketCount := errorPacketCount t;
     currentState := currentState t;
     runStateMachine := runStateMachine t;
     retransmissionTimeout := retransmissionTimeout t;
     ecStart := ecStart t;
     ecReset := v;
     ecUninitialized := ecUninitialized t;
     ecInitialized := ecInitialized t;
     ecActive := ecActive t |}.

Definition set_ecUninitialized (v : UninitializedExitCriterias) (t : H5Transport) : H5Transport :=
  {| seqNum := seqNum t;
     ackNum := ackNum t;
     c0Found := c0Found t;
     unprocessedData := unprocessedData t;
     lastPacket := lastPacket t;
     incomingPacketCount := incomingPacketCount t;
     outgoingPacketCount := outgoingPacketCount t;
     errorPacketCount := errorPacketCount t;
     currentState := currentState t;
     runStateMachine := runStateMachine t;
     retransmissionTimeout := retransmissionTimeout t;
     ecStart := ecStart t;
     ecReset := ecReset t;
     ecUninitialized := v;
     ecInitialized := ecInitialized t;
     ecActive := ecActive t |}.

Definition set_ecInitialized (v : InitializedExitCriterias) (t : H5Transport) : H5Transport :=
  {| seqNum := seqNum t;
     ackNum := ackNum t;
     c0Found := c0Found t;
     unprocessedData := unprocessedData t;
     lastPacket := lastPacket t;
     incomingPacketCount := incomingPacketCount t;
     outgoingPacketCount := outgoingPacketCount t;
     errorPacketCount := errorPacketCount t;
     currentState := currentState t;
     runStateMachine := runStateMachine t;
     retransmissionTimeout := retransmissionTimeout t;
     ecStart := ecStart t;
     ecReset := ecReset t;
     ecUninitialized := ecUninitialized t;
     ecInitialized := v;
     ecActive := ecActive t |}.

Definition set_ecActive (v : ActiveExitCriterias) (t : H5Transport) : H5Transport :=
  {| seqNum := seqNum t;
     ackNum := ackNum t;
     c0Found := c0Found t;
     unprocessedData := unprocessedData t;
     lastPacket := lastPacket t;
     incomingPacketCount := incomingPacketCount t;
     outgoingPacketCount := outgoingPacketCount t;
     errorPacketCount := errorPacketCount t;
     currentState := currentState t;
     runStateMachine := runStateMachine t;
     retransmissionTimeout := retransmissionTimeout t;
     ecStart := ecStart t;
     ecReset := ecReset t;
     ecUninitialized := ecUninitialized t;
     ecInitialized := ecInitialized t;
     ecActive := v |}.

(** ** Sequence counters *)

Definition incrementSeqNum (t : H5Transport) : H5Transport :=
  let t := set_seqNum ((seqNum t + 1) mod 256) t in
  set_seqNum (Z.land (seqNum t) 0x07) t.

Definition incrementAckNum (t : H5Transport) : H5Transport :=
  let t := set_ackNum ((ackNum t + 1) mod 256) t in
  set_ackNum (Z.land (ackNum t) 0x07) t.

(** [logPacket]: the counter is incremented; the log line is not modelled. *)
Definition logPacket (outgoing : bool) (t : H5Transport) : H5Transport :=
  if outgoing then set_outgoingPacketCount (outgoingPacketCount t + 1) t
  else set_incomingPacketCount (incomingPacketCount t + 1) t.

Section Transport.

Context {codecs : Codecs}.

(** ** Sending control packets *)

(** [pkt_pattern[type]]; the map has no entry for [CONTROL_PKT_ACK], for
    which [operator[]] yields an empty vector. *)
Definition pkt_pattern (type : control_pkt_type) : bytes :=
  match type with
  | CONTROL_PKT_RESET => []
  | CONTROL_PKT_SYNC => [syncFirstByte; syncSecondByte]
  | CONTROL_PKT_SYNC_RESPONSE => [syncRspFirstByte; syncRspSecondByte]
  | CONTROL_PKT_SYNC_CONFIG =>
      [syncConfigFirstByte; syncConfigSecondByte; syncConfigField]
  | CONTROL_PKT_SYNC_CONFIG_RESPONSE =>
      [syncConfigRspFirstByte; syncConfigRspSecondByte; syncConfigField]
  | CONTROL_PKT_ACK => []
  end.

Definition control_h5_packet (type : control_pkt_type) : h5_pkt_type_t :=
  match type with
  | CONTROL_PKT_RESET => RESET_PACKET
  | CONTROL_PKT_SYNC | CONTROL_PKT_SYNC_RESPONSE
  | CONTROL_PKT_SYNC_CONFIG | CONTROL_PKT_SYNC_CONFIG_RESPONSE =>
      LINK_CONTROL_PACKET
  | CONTROL_PKT_ACK => ACK_PACKET
  end.

(** The bytes that [sendControlPacket] hands to the lower transport. *)
Definition control_frame (type : control_pkt_type) (ack : Z) : bytes :=
  slip_encode
    (h5_encode (pkt_pattern type) 0
       (match type with CONTROL_PKT_ACK => ack | _ => 0 end)
       false false (control_h5_packet type)).

Definition sendControlPacket (type : control_pkt_type) (t : H5Transport)
  : outcome H5Transport :=
  let slipPacket := control_frame type (ackNum t) in
  let t := logPacket true t in
  emit t (LowerSend slipPacket).

(** ** Processing incoming packets *)

(** [h5Payload[0] == b0 && h5Payload[1] == b1], with the short-circuit of
    [&&]; indexing past the end of the vector is a fault. *)
Definition is_pattern (h5Payload : bytes) (b0 b1 : Z) : outcome bool :=
  match nth_error h5Payload 0 with
  | None => Fault OutOfRange []
  | Some x =>
      if x =? b0 then
        match nth_error h5Payload 1 with
        | None => Fault OutOfRange []
        | Some y => ret (y =? b1)
        end
      else ret false
  end.

(** [dynamic_cast<ActiveExitCriterias*>(exitCriterias[currentState])
       ->irrecoverableSyncError = true]. *)
Definition raise_irrecoverableSyncError (t : H5Transport) : outcome H5Transport :=
  match cast_Active (exitCriterias t (currentState t)) with
  | None => Fault NullDereference []
  | Some c =>
      ret (set_ecActive
             {| active_ioResourceError := active_ioResourceError c;
                active_close := active_close c;
                syncReceived := syncReceived c;
                irrecoverableSyncError := true |} t)
  end.

Definition when (b : bool) (k : H5Transport -> outcome H5Transport)
    (t : H5Transport) : outcome H5Transport :=
  if b then k t else ret t.

Definition link_control_uninitialized (isSync isSyncRsp : bool)
    (t : H5Transport) : outcome H5Transport :=
  t <- when isSyncRsp (fun t =>
         match cast_Uninitialized (exitCriterias t (currentState t)) with
         | None => Fault NullDereference []
         | Some c =>
             emit (set_ecUninitialized
                     {| uninit_ioResourceError := uninit_ioResourceError c;
                        uninit_close := uninit_close c;
                        syncSent := syncSent c;
                        syncRspReceived := true |} t) SyncNotify
         end) t ;;
  when isSync (sendControlPacket CONTROL_PKT_SYNC_RESPONSE) t.

Definition upd_Initialized (f : InitializedExitCriterias -> InitializedExitCriterias)
    (t : H5Transport) : outcome H5Transport :=
  match cast_Initialized (exitCriterias t (currentState t)) with
  | None => Fault NullDereference []
  | Some c => ret (set_ecInitialized (f c) t)
  end.

Definition link_control_initialized (isSync isSyncConfig isSyncConfigRsp : bool)
    (t : H5Transport) : outcome H5Transport :=
  t <- when isSyncConfigRsp (fun t =>
         t <- upd_Initialized (fun c =>
                {| init_ioResourceError := init_ioResourceError c;
                   init_close := init_close c;
                   syncConfigSent := syncConfigSent c;
                   syncConfigRspReceived := true;
                   syncConfigReceived := syncConfigReceived c;
                   syncConfigRspSent := syncConfigRspSent c |}) t ;;
         emit t SyncNotify) t ;;
  t <- when isSyncConfig (fun t =>
         t <- upd_Initialized (fun c =>
                {| init_ioResourceError := init_ioResourceError c;
                   init_close := init_close c;
                   syncConfigSent := syncConfigSent c;
                   syncConfigRspReceived := syncConfigRspReceived c;
                   syncConfigReceived := true;
                   syncConfigRspSent := syncConfigRspSent c |}) t ;;
         t <- sendControlPacket CONTROL_PKT_SYNC_CONFIG_RESPONSE t ;;
         t <- upd_Initialized (fun c =>
                {| init_ioResourceError := init_ioResourceError c;
                   init_close := init_close c;
                   syncConfigSent := syncConfigSent c;
                   syncConfigRspReceived := syncConfigRspReceived c;
                   syncConfigReceived := syncConfigReceived c;
                   syncConfigRspSent := true |}) t ;;
         emit t SyncNotify) t ;;
  when isSync (sendControlPacket CONTROL_PKT_SYNC_RESPONSE) t.

Definition link_control_active (isSync : bool) (t : H5Transport)
  : outcome H5Transport :=
  match cast_Active (exitCriterias t (currentState t)) with
  | None => if isSync then Fault NullDereference [] else ret t
  | Some c =>
      when isSync (fun t =>
        emit (set_ecActive
                {| active_ioResourceError := active_ioResourceError c;
                   active_close := active_close c;
                   syncReceived := true;
                   irrecoverableSyncError := irrecoverableSyncError c |} t)
             SyncNotify) t
  end.

(** The part of [processPacket] that follows the two decoders. *)
Definition dispatch (d : H5.decoded) (t : H5Transport) : outcome H5Transport :=
  let h5Payload := H5.d_payload d in
  let seq_num := H5.d_seq_num d in
  let ack_num := H5.d_ack_num d in
  let reliable_packet := H5.d_reliable d in
  let packet_type := H5.d_type d in
  if h5_state_eqb (currentState t) STATE_RESET then
    (* Ignore packets received in this state. *)
    emit t SyncNotify
  else if packet_type =? LINK_CONTROL_PACKET then
    isSyncPacket <- is_pattern h5Payload syncFirstByte syncSecondByte ;;
    isSyncResponsePacket <-
      is_pattern h5Payload syncRspFirstByte syncRspSecondByte ;;
    isSyncConfigPacket <-
      is_pattern h5Payload syncConfigFirstByte syncConfigSecondByte ;;
    isSyncConfigResponsePacket <-
      is_pattern h5Payload syncConfigRspFirstByte syncConfigRspSecondByte ;;
    match currentState t with
    | STATE_UNINITIALIZED =>
        link_control_uninitialized isSyncPacket isSyncResponsePacket t
    | STATE_INITIALIZED =>
        link_control_initialized isSyncPacket isSyncConfigPacket
          isSyncConfigResponsePacket t
    | STATE_ACTIVE => link_control_active isSyncPacket t
    | _ => ret t
    end
  else if packet_type =? VENDOR_SPECIFIC_PACKET then
    if h5_state_eqb (currentState t) STATE_ACTIVE then
      if reliable_packet then
        if seq_num =? ackNum t then
          let t := incrementAckNum t in
          t <- sendControlPacket CONTROL_PKT_ACK t ;;
          emit t (DataCallback h5Payload)
        else
          t <- raise_irrecoverableSyncError t ;;
          emit t SyncNotify
      else ret t
    else ret t
  else if packet_type =? ACK_PACKET then
    if ack_num =? seqNum t + 1 then
      (* Received a packet with valid ack_num *)
      let t := incrementSeqNum t in
      emit t AckNotify
    else if ack_num =? seqNum t then
      (* Discard packet *)
      ret t
    else
      t <- raise_irrecoverableSyncError t ;;
      emit t SyncNotify
  else ret t.

Definition processPacket (packet : bytes) (t : H5Transport)
  : outcome H5Transport :=
  match slip_decode packet with
  | None => ret (set_errorPacketCount (errorPacketCount t + 1) t)
  | Some slipPayload =>
      let t := logPacket false t in
      match h5_decode slipPayload with
      | None => ret (set_errorPacketCount (errorPacketCount t + 1) t)
      | Some d => dispatch d t
      end
  end.

(** [statusHandler]: [exitCriterias[currentState]->ioResourceError = true]
    writes through a base-class pointer. *)
Definition set_ioResourceError (t : H5Transport) : outcome H5Transport :=
  match exitCriterias t (currentState t) with
  | None => Fault NullDereference []
  | Some (OfStart c) =>
      ret (set_ecStart {| start_ioResourceError := true;
                          start_close := start_close c;
                          isOpened := isOpened c |} t)
  | Some (OfReset c) =>
      ret (set_ecReset {| reset_ioResourceError := true;
                          reset_close := reset_close c;
                          resetSent := resetSent c |} t)
  | Some (OfUninitialized c) =>
      ret (set_ecUninitialized {| uninit_ioResourceError := true;
                                  uninit_close := uninit_close c;
                                  syncSent := syncSent c;
                                  syncRspReceived := syncRspReceived c |} t)
  | Some (OfInitialized c) =>
      ret (set_ecInitialized
             {| init_ioResourceError := true;
                init_close := init_close c;
                syncConfigSent := syncConfigSent c;
                syncConfigRspReceived := syncConfigRspReceived c;
                syncConfigReceived := syncConfigReceived c;
                syncConfigRspSent := syncConfigRspSent c |} t)
  | Some (OfActive c) =>
      ret (set_ecActive {| active_ioResourceError := true;
                           active_close := active_close c;
                           syncReceived := syncReceived c;
                           irrecoverableSyncError := irrecoverableSyncError c |} t)
  end.

Definition statusHandler (code : sd_rpc_app_status_t) (t : H5Transport)
  : outcome H5Transport :=
  t <- match code with
       | IO_RESOURCES_UNAVAILABLE =>
           t <- set_ioResourceError t ;; emit t SyncNotify
       | _ => ret t
       end ;;
  emit t (StatusCallback code).

(** ** The receive assembler *)

(** The [for] loop of [dataHandler]: [data] is what remains of the chunk,
    [packet] the local vector.  The call of [processPacket] is recorded in
    the trace. *)
Fixpoint dataHandler_loop (data : bytes) (packet : bytes) (t : H5Transport)
  : outcome (bytes * H5Transport) :=
  match data with
  | [] => ret (packet, t)
  | b :: data' =>
      let packet := packet ++ [b] in
      if b =? 0xC0 then
        if c0Found t then
          (* End of packet found *)
          if (Z.of_nat (length packet) =? 2) then
            dataHandler_loop data' [0xC0] t
          else
            t <- emit t (ProcessPacket packet) ;;
            t <- processPacket packet t ;;
            dataHandler_loop data' []
              (set_c0Found false (set_unprocessedData [] t))
        else
          (* Start of packet found *)
          dataHandler_loop data' [0xC0] (set_c0Found true t)
      else dataHandler_loop data' packet t
  end.

Definition dataHandler (data : bytes) (t : H5Transport) : outcome H5Transport :=
  let packet :=
    match unprocessedData t with
    | [] => []
    | _ :: _ => unprocessedData t
    end in
  r <- dataHandler_loop data packet t ;;
  match fst r with
  | [] => ret (snd r)
  | _ :: _ => ret (set_unprocessedData (fst r) (snd r))
  end.

(** Successive calls of [dataHandler], one per chunk delivered by the
    lower transport. *)
Fixpoint dataHandler_chunks (chunks : list bytes) (t : H5Transport)
  : outcome H5Transport :=
  match chunks with
  | [] => ret t
  | c :: chunks' =>
      t <- dataHandler c t ;;
      dataHandler_chunks chunks' t
  end.

(** ** The reliable sender *)

Inductive cv_status := no_timeout | timeout.

Definition is_AckNotify (e : event) : bool :=
  match e with AckNotify => true | _ => false end.

(** [ackWaitCondition.wait_for(ackGuard, retransmissionTimeout)].  While
    the caller is blocked the reader thread hands the packets [incoming]
    to [processPacket], one after the other.  The wait ends with
    [no_timeout] as soon as one of them notifies [ackWaitCondition], and
    with [timeout] when none of them does.  Spurious wake-ups are not
    modelled, and the state-machine worker stays blocked meanwhile. *)
Fixpoint ack_wait_for (incoming : list bytes) (t : H5Transport)
  : outcome (cv_status * H5Transport) :=
  match incoming with
  | [] => ret (timeout, t)
  | p :: incoming' =>
      match processPacket p t with
      | Fault f tr => Fault f tr
      | Done t' tr =>
          if existsb is_AckNotify tr then Done (no_timeout, t') tr
          else r <- Done t' tr ;; ack_wait_for incoming' r
      end
  end.

(** The [while (remainingRetransmissions--)] loop of [send]; [env] lists,
    wait by wait, what the reader thread receives during the wait. *)
Fixpoint send_loop (remainingRetransmissions : nat) (env : list (list bytes))
    (t : H5Transport) : outcome (nrf_error * H5Transport) :=
  match remainingRetransmissions with
  | O => ret (NRF_ERROR_TIMEOUT, set_lastPacket [] t)
  | S remaining =>
      let t := logPacket true t in
      t <- emit t (LowerSend (lastPacket t)) ;;
      t <- emit t (AckWait (retransmissionTimeout t)) ;;
      r <- ack_wait_for (hd [] env) t ;;
      match fst r with
      | no_timeout => ret (NRF_SUCCESS, set_lastPacket [] (snd r))
      | timeout => send_loop remaining (tl env) (snd r)
      end
  end.

Definition send (data : bytes) (env : list (list bytes)) (t : H5Transport)
  : outcome (nrf_error * H5Transport) :=
  if negb (h5_state_eqb (currentState t) STATE_ACTIVE) then
    ret (NRF_ERROR_INVALID_STATE, t)
  else
    let h5EncodedPacket :=
      h5_encode data (seqNum t) (ackNum t) true true VENDOR_SPECIFIC_PACKET in
    let encodedPacket := slip_encode h5EncodedPacket in
    let t := set_lastPacket encodedPacket t in
    send_loop (Z.to_nat PACKET_RETRANSMISSIONS) env t.

(** ** The state machine *)

(** What another thread does while the worker is blocked on
    [syncWaitCondition]. *)
Inductive activity :=
| Incoming (packet : bytes)                (* reader thread: processPacket *)
| LowerStatus (code : sd_rpc_app_status_t) (* reader thread: statusHandler *)
| OpenCompleted                            (* open: isOpened = true *)
| CloseRequested.                          (* close, up to the join *)

(** The tail of [open] after both transports are open. *)
Definition open_completed (t : H5Transport) : outcome H5Transport :=
  emit (set_ecStart {| start_ioResourceError := start_ioResourceError (ecStart t);
                       start_close := start_close (ecStart t);
                       isOpened := true |} t) SyncNotify.

(** [exitCriterias[currentState]->close = true]. *)
Definition set_close (t : H5Transport) : outcome H5Transport :=
  match exitCriterias t (currentState t) with
  | None => Fault NullDereference []
  | Some (OfStart c) =>
      ret (set_ecStart {| start_ioResourceError := start_ioResourceError c;
                          start_close := true;
                          isOpened := isOpened c |} t)
  | Some (OfReset c) =>
      ret (set_ecReset {| reset_ioResourceError := reset_ioResourceError c;
                          reset_close := true;
                          resetSent := resetSent c |} t)
  | Some (OfUninitialized c) =>
      ret (set_ecUninitialized
             {| uninit_ioResourceError := uninit_ioResourceError c;
                uninit_close := true;
                syncSent := syncSent c;
                syncRspReceived := syncRspReceived c |} t)
  | Some (OfInitialized c) =>
      ret (set_ecInitialized
             {| init_ioResourceError := init_ioResourceError c;
                init_close := true;
                syncConfigSent := syncConfigSent c;
                syncConfigRspReceived := syncConfigRspReceived c;
                syncConfigReceived := syncConfigReceived c;
                syncConfigRspSent := syncConfigRspSent c |} t)
  | Some (OfActive c) =>
      ret (set_ecActive {| active_ioResourceError := active_ioResourceError c;
                           active_close := true;
                           syncReceived := syncReceived c;
                           irrecoverableSyncError := irrecoverableSyncError c |} t)
  end.

(** [close] up to the point where [stopStateMachine] joins the worker. *)
Definition close_requested (t : H5Transport) : outcome H5Transport :=
  t <- set_close t ;;
  emit (set_runStateMachine false t) SyncNotify.

Definition perform (a : activity) (t : H5Transport) : outcome H5Transport :=
  match a with
  | Incoming packet => processPacket packet t
  | LowerStatus code => statusHandler code t
  | OpenCompleted => open_completed t
  | CloseRequested => close_requested t
  end.

Definition is_SyncNotify (e : event) : bool :=
  match e with SyncNotify => true | _ => false end.

(** A wait on [syncWaitCondition] during which the other threads perform
    [acts]: it ends with [no_timeout] at the first notification, and with
    [timeout] when there is none. *)
Fixpoint sync_wait (acts : list activity) (t : H5Transport)
  : outcome (cv_status * H5Transport) :=
  match acts with
  | [] => ret (timeout, t)
  | a :: acts' =>
      match perform a t with
      | Fault f tr => Fault f tr
      | Done t' tr =>
          if existsb is_SyncNotify tr then Done (no_timeout, t') tr
          else r <- Done t' tr ;; sync_wait acts' r
      end
  end.

Definition fulfilled (state : h5_state_t) (t : H5Transport) : bool :=
  match exitCriterias t state with
  | Some c => isFullfilled c
  | None => false
  end.

(** The environment of the worker: one list of activities per blocking
    call, in order.  A call of [wait_for] beyond the end of the list times
    out with nothing happening; a call of [wait] beyond the end of the list
    never returns, which an action reports by [None] for the next state. *)
Definition environment := list (list activity).

Definition action_result : Type := option h5_state_t * environment * H5Transport.

(** [while (!exit->isFullfilled()) syncWaitCondition.wait(syncGuard);] *)
Fixpoint wait_fulfilled (state : h5_state_t) (env : environment)
    (t : H5Transport) : outcome (bool * environment * H5Transport) :=
  if fulfilled state t then ret (true, env, t)
  else
    match env with
    | [] => emit (false, [], t) SyncWait
    | acts :: env' =>
        t <- emit t SyncWait ;;
        r <- sync_wait acts t ;;
        wait_fulfilled state env' (snd r)
    end.

Definition action_START (env : environment) (t : H5Transport)
  : outcome action_result :=
  let t := set_ecStart reset_Start t in
  r <- wait_fulfilled STATE_START env t ;;
  let '(woke, env, t) := r in
  if negb woke then ret (None, env, t)
  else if start_ioResourceError (ecStart t) then ret (Some STATE_FAILED, env, t)
  else if isOpened (ecStart t) then ret (Some STATE_RESET, env, t)
  else ret (Some STATE_FAILED, env, t).

(** The loop of the RESET action; every iteration blocks once. *)
Fixpoint reset_loop (env : environment) (t : H5Transport)
  : outcome (bool * environment * H5Transport) :=
  if fulfilled STATE_RESET t then ret (true, env, t)
  else
    t <- sendControlPacket CONTROL_PKT_RESET t ;;
    t <- emit t (StatusCallback RESET_PERFORMED) ;;
    let t := set_ecReset {| reset_ioResourceError := reset_ioResourceError (ecReset t);
                            reset_close := reset_close (ecReset t);
                            resetSent := true |} t in
    t <- emit t (SyncWaitFor RESET_WAIT_DURATION) ;;
    match env with
    | [] =>
        (* nothing happens during the wait; [resetSent] is set, so the
           loop condition fails at the next test *)
        ret (fulfilled STATE_RESET t, [], t)
    | acts :: env' =>
        r <- sync_wait acts t ;;
        reset_loop env' (snd r)
    end.

Definition action_RESET (env : environment) (t : H5Transport)
  : outcome action_result :=
  let t := set_ecReset reset_Reset t in
  r <- reset_loop env t ;;
  let '(finished, env, t) := r in
  if negb finished then ret (None, env, t)
  else if negb (fulfilled STATE_RESET t) then ret (Some STATE_FAILED, env, t)
  else ret (Some STATE_UNINITIALIZED, env, t).

(** [while (!exit->isFullfilled() && syncRetransmission--)] of the
    UNINITIALIZED action. *)
Fixpoint uninitialized_loop (syncRetransmission : nat) (env : environment)
    (t : H5Transport) : outcome (environment * H5Transport) :=
  if fulfilled STATE_UNINITIALIZED t then ret (env, t)
  else
    match syncRetransmission with
    | O => ret (env, t)
    | S syncRetransmission' =>
        t <- sendControlPacket CONTROL_PKT_SYNC t ;;
        let c := ecUninitialized t in
        let t := set_ecUninitialized
                   {| uninit_ioResourceError := uninit_ioResourceError c;
                      uninit_close := uninit_close c;
                      syncSent := true;
                      syncRspReceived := syncRspReceived c |} t in
        t <- emit t (SyncWaitFor NON_ACTIVE_STATE_TIMEOUT) ;;
        r <- sync_wait (hd [] env) t ;;
        uninitialized_loop syncRetransmission' (tl env) (snd r)
    end.

Definition action_UNINITIALIZED (env : environment) (t : H5Transport)
  : outcome action_result :=
  let t := set_ecUninitialized reset_Uninitialized t in
  r <- uninitialized_loop (Z.to_nat PACKET_RETRANSMISSIONS) env t ;;
  let '(env, t) := r in
  if fulfilled STATE_UNINITIALIZED t then ret (Some STATE_INITIALIZED, env, t)
  else ret (Some STATE_FAILED, env, t).

(** [while (!exit->isFullfilled() && syncRetransmission > 0)] of the
    INITIALIZED action, once the environment is used up: every remaining
    wait times out. *)
Fixpoint initialized_timeouts (syncRetransmission : nat) (t : H5Transport)
  : outcome H5Transport :=
  if fulfilled STATE_INITIALIZED t then ret t
  else
    match syncRetransmission with
    | O => ret t
    | S syncRetransmission' =>
        t <- emit t (SyncWaitFor NON_ACTIVE_STATE_TIMEOUT) ;;
        t <- sendControlPacket CONTROL_PKT_SYNC_CONFIG t ;;
        initialized_timeouts syncRetransmission' t
    end.

Fixpoint initialized_loop (env : environment) (syncRetransmission : nat)
    (t : H5Transport) : outcome (environment * H5Transport) :=
  match env with
  | [] => t <- initialized_timeouts syncRetransmission t ;; ret ([], t)
  | acts :: env' =>
      if fulfilled STATE_INITIALIZED t then ret (env, t)
      else
        match syncRetransmission with
        | O => ret (env, t)
        | S syncRetransmission' =>
            t <- emit t (SyncWaitFor NON_ACTIVE_STATE_TIMEOUT) ;;
            r <- sync_wait acts t ;;
            match fst r with
            | timeout =>
                t <- sendControlPacket CONTROL_PKT_SYNC_CONFIG (snd r) ;;
                initialized_loop env' syncRetransmission' t
            | no_timeout => initialized_loop env' syncRetransmission (snd r)
            end
        end
  end.

Definition action_INITIALIZED (env : environment) (t : H5Transport)
  : outcome action_result :=
  let t := set_ecInitialized reset_Initialized t in
  (* Send a package immediately *)
  t <- sendControlPacket CONTROL_PKT_SYNC_CONFIG t ;;
  let c := ecInitialized t in
  let t := set_ecInitialized
             {| init_ioResourceError := init_ioResourceError c;
                init_close := init_close c;
                syncConfigSent := true;
                syncConfigRspReceived := syncConfigRspReceived c;
                syncConfigReceived := syncConfigReceived c;
                syncConfigRspSent := syncConfigRspSent c |} t in
  r <- initialized_loop env (Z.to_nat PACKET_RETRANSMISSIONS) t ;;
  let '(env, t) := r in
  let c := ecInitialized t in
  if syncConfigSent c && syncConfigRspReceived c
     && syncConfigReceived c && syncConfigRspSent c
  then ret (Some STATE_ACTIVE, env, t)
  else ret (Some STATE_FAILED, env, t).

(** The ACTIVE action up to its first wait. *)
Definition active_entry (t : H5Transport) : outcome H5Transport :=
  let t := set_seqNum 0 t in
  let t := set_ackNum 0 t in
  let t := set_ecActive reset_Active t in
  statusHandler CONNECTION_ACTIVE t.

(** The ACTIVE action from its first wait on. *)
Definition active_wait (env : environment) (t : H5Transport)
  : outcome action_result :=
  r <- wait_fulfilled STATE_ACTIVE env t ;;
  let '(woke, env, t) := r in
  let c := ecActive t in
  if negb woke then ret (None, env, t)
  else if syncReceived c || irrecoverableSyncError c
  then ret (Some STATE_RESET, env, t)
  else if active_close c then ret (Some STATE_START, env, t)
  else if active_ioResourceError c then ret (Some STATE_FAILED, env, t)
  else ret (Some STATE_FAILED, env, t).

Definition action_ACTIVE (env : environment) (t : H5Transport)
  : outcome action_result :=
  t <- active_entry t ;;
  active_wait env t.

(** [stateActions[state]()]; the map has no action for [STATE_UNKNOWN]. *)
Definition stateActions (state : h5_state_t) (env : environment)
    (t : H5Transport) : outcome action_result :=
  match state with
  | STATE_START => action_START env t
  | STATE_RESET => action_RESET env t
  | STATE_UNINITIALIZED => action_UNINITIALIZED env t
  | STATE_INITIALIZED => action_INITIALIZED env t
  | STATE_ACTIVE => action_ACTIVE env t
  | STATE_FAILED => ret (Some STATE_FAILED, env, t)
  | STATE_UNKNOWN => Fault BadFunctionCall []
  end.

(** The end of an iteration of the loop of [stateMachineWorker]: the state
    that the action returned is assigned, the waiters are notified, and
    the loop goes on with [continue]. *)
Definition transition
    (continue : environment -> H5Transport -> outcome (bool * H5Transport))
    (r : action_result) : outcome (bool * H5Transport) :=
  let '(nextState, env, t) := r in
  match nextState with
  | None => ret (true, t)
  | Some nextState =>
      let t := set_currentState nextState t in
      (* Inform interested parties that new state is about to be entered *)
      t <- emit t StateNotify ;;
      continue env t
  end.

(** [stateMachineWorker]: [fuel] bounds the number of iterations of its
    loop.  The result tells whether the worker is still inside an action
    ([true]: blocked in a wait for good, or out of fuel) or has left its
    loop ([false]). *)
Fixpoint stateMachineWorker (fuel : nat) (env : environment) (t : H5Transport)
  : outcome (bool * H5Transport) :=
  if negb (h5_state_eqb (currentState t) STATE_FAILED) && runStateMachine t then
    match fuel with
    | O => ret (true, t)
    | S fuel' =>
        r <- stateActions (currentState t) env t ;;
        transition (stateMachineWorker fuel') r
    end
  else ret (false, t).

(** ** Opening the transport *)

Definition startStateMachine (t : H5Transport) : H5Transport :=
  let t := set_runStateMachine true t in
  set_currentState STATE_START t.

(** [stateWaitCondition.wait_for(lock, timeout, pred)], with
    [pred = (currentState == state)].  While the caller is blocked the
    worker assigns [currentState] and notifies; [changes] lists these
    assignments with the time, in milliseconds since the call, at which
    each is made.  The predicate is tested at the call and at every
    notification that comes before the timeout. *)
Fixpoint wait_for_state (state : h5_state_t) (timeout : Z)
    (changes : list (Z * h5_state_t)) (t : H5Transport) : H5Transport :=
  if h5_state_eqb (currentState t) state then t
  else
    match changes with
    | [] => t
    | (at_ms, newState) :: changes' =>
        if at_ms <=? timeout
        then wait_for_state state timeout changes' (set_currentState newState t)
        else t
    end.

Definition waitForState (state : h5_state_t) (timeout : Z)
    (changes : list (Z * h5_state_t)) (t : H5Transport) : bool * H5Transport :=
  let t := wait_for_state state timeout changes t in
  if negb (h5_state_eqb (currentState t) state) then (false, t) else (true, t).




End Transport.

(** The object that the constructor builds. *)
Definition H5Transport_new (retransmission_timeout : Z) : H5Transport :=
  {| seqNum := 0; ackNum := 0; c0Found := false;
     unprocessedData := []; lastPacket := [];
     incomingPacketCount := 0; outgoingPacketCount := 0;
     errorPacketCount := 0;
     currentState := STATE_START;
     runStateMachine := false;
     retransmissionTimeout := retransmission_timeout;
     ecStart := reset_Start; ecReset := reset_Reset;
     ecUninitialized := reset_Uninitialized;
     ecInitialized := reset_Initialized;
     ecActive := reset_Active |}.

(** ** Debugging *)

Module Debug.

Import Ascii String.

(** What [operator<<] prints for an [int] in decimal. *)
Definition dec (z : Z) : string :=
  DecimalString.NilZero.string_of_int (Z.to_int z).

(** One lower-case hexadecimal digit, as [std::hex] prints it. *)
Definition hex_digit (n : Z) : ascii :=
  match n with
  | 0 => "0" | 1 => "1" | 2 => "2" | 3 => "3" | 4 => "4" | 5 => "5"
  | 6 => "6" | 7 => "7" | 8 => "8" | 9 => "9" | 10 => "a" | 11 => "b"
  | 12 => "c" | 13 => "d" | 14 => "e" | 15 => "f" | _ => "?"
  end%char.

(** [hex << setfill('0') << setw(2) << std::hex << +byte << " "], for a
    [uint8_t]. *)
Definition hex_byte (byte : Z) : string :=
  String (hex_digit (byte / 16)) (String (hex_digit (byte mod 16)) " ").

Definition asHex (packet : bytes) : string :=
  fold_right append ""%string (map hex_byte packet).

(** The lambda [configToString] of [hciPacketLinkControlToString]. *)
Definition configToString (config : Z) : string :=
  (" sliding-window-size:" ++ dec (Z.land config 0x07)
   ++ " out-of-frame:" ++ (if (Z.land config 0x08 =? 0)%Z then "0" else "1")
   ++ " data-integrity-check-type:"
   ++ (if (Z.land config 0x0f =? 0)%Z then "0" else "1")
   ++ " version-number:" ++ dec (Z.shiftr (Z.land config 0x0e) 5)
   ++ " ")%string.

Definition when_str (b : bool) (s : string) : string :=
  if b then s else ""%string.

(** [hciPacketLinkControlToString]; [payload[2]] is read without a test of
    the size in the SYNC-CONFIG-RESPONSE case. *)
Definition hciPacketLinkControlToString (payload : bytes) : outcome string :=
  match payload with
  | p0 :: p1 :: rest =>
      let starts (b0 b1 : Z) := (p0 =? b0) && (p1 =? b1) in
      let config :=
        if starts syncConfigFirstByte syncConfigSecondByte
           && (Z.of_nat (List.length payload) =? 3)
        then ("CONFIG [" ++ configToString (nth 2 payload 0) ++ "]")%string
        else ""%string in
      config_resp <-
        (if starts syncConfigRspFirstByte syncConfigRspSecondByte then
           match nth_error payload 2 with
           | Some c => ret ("CONFIG_RESP [" ++ configToString c ++ "]")%string
           | None => Fault OutOfRange []
           end
         else ret ""%string) ;;
      ret ("["
           ++ when_str (starts syncFirstByte syncSecondByte) "SYNC"
           ++ when_str (starts syncRspFirstByte syncRspSecondByte) "SYNC_RESP"
           ++ config ++ config_resp
           ++ when_str (starts 0x05 0xfa) "WAKEUP"
           ++ when_str (starts 0x06 0xf9) "WOKEN"
           ++ when_str (starts 0x07 0x78) "SLEEP"
           ++ "]")%string
  | _ => ret ""%string
  end.

End Debug.

(** ** Observations on traces *)

Definition sent_frames (tr : list event) : list bytes :=
  flat_map (fun e => match e with LowerSend f => [f] | _ => [] end) tr.


Definition processed (tr : list event) : list bytes :=
  flat_map (fun e => match e with ProcessPacket p => [p] | _ => [] end) tr.

(** ** Vocabulary of the properties *)






Definition trace_of {A : Type} (o : outcome A) : list event :=
  match o with
  | Done _ tr => tr
  | Fault _ tr => tr
  end.

(** A computation that does not call [processPacket]. *)
Definition no_call {A : Type} (o : outcome A) : Prop :=
  processed (trace_of o) = [].

(** A stuffed frame: a body between two delimiters.  The body of a
    well-formed frame is not empty and, being stuffed, holds no delimiter. *)
Definition frame_of (body : bytes) : bytes := 0xC0 :: body ++ [0xC0].

Definition valid_body (body : bytes) : bool :=
  match body with
  | [] => false
  | _ :: _ => forallb (fun b => negb (b =? 0xC0)) body
  end.

(** Where the assembler stands in a stream of well-formed frames: [rest]
    is what remains to be read and [bs] the bodies of the frames not yet
    passed on.  Outside a frame the buffer is empty; inside, it holds the
    delimiter and the part [pre] of the body read so far. *)
Definition in_stream (packet : bytes) (c0 : bool) (rest : bytes)
    (bs : list bytes) : Prop :=
  forallb valid_body bs = true
  /\ if c0 then
       exists pre post bs',
         bs = (pre ++ post) :: bs' /\ packet = 0xC0 :: pre
         /\ rest = post ++ 0xC0 :: flat_map frame_of bs'
     else packet = [] /\ rest = flat_map frame_of bs.



(** The worker assigns [state] within [timeout] milliseconds. *)
Definition reaches_within (state : h5_state_t) (timeout : Z)
    (changes : list (Z * h5_state_t)) : bool :=
  existsb (fun c => (fst c <=? timeout) && h5_state_eqb (snd c) state) changes.

(** The assignments come in the order of their times. *)
Fixpoint in_time_order (last : Z) (changes : list (Z * h5_state_t)) : bool :=
  match changes with
  | [] => true
  | (at_ms, _) :: changes' => (last <=? at_ms) && in_time_order at_ms changes'
  end.





(** The state that the ACTIVE action returns for given exit criteria. *)
Definition active_next (c : ActiveExitCriterias) : h5_state_t :=
  if syncReceived c || irrecoverableSyncError c then STATE_RESET
  else if active_close c then STATE_START
  else STATE_FAILED.

Definition no_delimiter (body : bytes) : bool :=
  forallb (fun b => negb (b =? 0xC0)) body.

(** Inside a frame the buffer is the opening delimiter followed by bytes
    of the body. *)
Definition buffer_in_frame (packet : bytes) (t : H5Transport) : Prop :=
  c0Found t = true ->
  exists pre, packet = 0xC0 :: pre /\ no_delimiter pre = true.

Definition delimited_frame (p : bytes) : Prop :=
  exists body, p = frame_of body /\ valid_body body = true.

(** Both sequence counters are 3-bit numbers. *)
Definition counters_in_range (t : H5Transport) : Prop :=
  0 <= seqNum t < 8 /\ 0 <= ackNum t < 8.

(** From [t] to [t'] with the effects [tr]: every frame written to the
    lower transport was counted in [outgoingPacketCount], and the
    sequence counters stayed 3-bit numbers. *)
Definition accounted (t t' : H5Transport) (tr : list event) : Prop :=
  outgoingPacketCount t' =
    outgoingPacketCount t + Z.of_nat (length (sent_frames tr))
  /\ (counters_in_range t -> counters_in_range t').

Definition keeps {A : Type} (proj : A -> H5Transport) (t : H5Transport)
    (o : outcome A) : Prop :=
  match o with
  | Done a tr => accounted t (proj a) tr
  | Fault _ _ => True
  end.

Module HexReading.

Import Ascii String.

(** The value of a hexadecimal digit. *)
Definition hex_value (c : ascii) : Z :=
  match c with
  | "0" => 0 | "1" => 1 | "2" => 2 | "3" => 3 | "4" => 4 | "5" => 5
  | "6" => 6 | "7" => 7 | "8" => 8 | "9" => 9 | "a" => 10 | "b" => 11
  | "c" => 12 | "d" => 13 | "e" => 14 | "f" => 15 | _ => 0
  end%char.

(** Reading a dump back, three characters at a time. *)
Fixpoint read_hex (fuel : nat) (s : string) : bytes :=
  match fuel, s with
  | S fuel', String hi (String lo (String _ s')) =>
      (16 * hex_value hi + hex_value lo) :: read_hex fuel' s'
  | _, _ => []
  end.

End HexReading.

Section Vocabulary.

Context {codecs : Codecs}.




End Vocabulary.

(** ** Concrete objects and frames, with the codecs modelled from the
       specification *)

Definition active_transport : H5Transport :=
  set_currentState STATE_ACTIVE (H5Transport_new 250).

Definition failed_transport : H5Transport :=
  set_currentState STATE_FAILED (H5Transport_new 250).

(** The ACK frame that the peer sends to acknowledge up to [ack]. *)
Definition ack_frame (ack : Z) : bytes := control_frame CONTROL_PKT_ACK ack.

(** A reliable user frame of the peer. *)
Definition peer_frame (seq : Z) (payload : bytes) : bytes :=
  slip_encode (h5_encode payload seq 0 true false VENDOR_SPECIFIC_PACKET).

Definition uninitialized_transport : H5Transport :=
  set_currentState STATE_UNINITIALIZED (H5Transport_new 250).





(** * Properties *)

(** ** Equality of states *)


Lemma h5_state_eqb_neq (a b : h5_state_t) : h5_state_eqb a b = false <-> a <> b.
Proof. destruct a, b; simpl; split; congruence. Qed.

(** ** Arithmetic of the 3-bit counters *)

Lemma wrap3 (x : Z) : Z.land ((x + 1) mod 256) 0x07 = (x + 1) mod 8.
Proof.
  change 0x07 with (Z.ones 3).
  rewrite Z.land_ones by lia.
  change (2 ^ 3) with 8.
  apply Z.mod_mod_divide. exists 32. reflexivity.
Qed.


Lemma incrementAckNum_mod8 (t : H5Transport) :
  ackNum (incrementAckNum t) = (ackNum t + 1) mod 8.
Proof. unfold incrementAckNum. cbn. apply wrap3. Qed.

Section Dispatch.

Context {codecs : Codecs}.

(** A packet that passes both decoders reaches [dispatch], with the
    incoming-packet counter incremented. *)
Lemma processPacket_decoded (packet slipPayload : bytes) (d : H5.decoded)
    (t : H5Transport) :
  slip_decode packet = Some slipPayload ->
  h5_decode slipPayload = Some d ->
  processPacket packet t = dispatch d (logPacket false t).
Proof.
  intros Hslip Hh5. unfold processPacket. rewrite Hslip, Hh5. reflexivity.
Qed.

(** C1: an ACK whose [ack_num] is 0 never acknowledges a frame sent with
    [seqNum = 7]: the comparison [ack_num == seqNum + 1] is made without
    the reduction modulo 8, so in ACTIVE the packet raises
    [irrecoverableSyncError] instead, [seqNum] stays at 7 and
    [ackWaitCondition] is not notified. *)
Theorem ack_wrap_7_to_0_not_acknowledged (packet slipPayload : bytes)
    (d : H5.decoded) (t : H5Transport) :
  slip_decode packet = Some slipPayload ->
  h5_decode slipPayload = Some d ->
  H5.d_type d = ACK_PACKET ->
  currentState t = STATE_ACTIVE ->
  seqNum t = 7 ->
  H5.d_ack_num d = (seqNum t + 1) mod 8 ->
  exists t',
    processPacket packet t = Done t' [SyncNotify]
    /\ seqNum t' = 7
    /\ irrecoverableSyncError (ecActive t') = true.
Proof.
  intros Hslip Hh5 Hty Hst Hseq Hack.
  rewrite (processPacket_decoded _ _ _ _ Hslip Hh5).
  rewrite Hseq in Hack. change ((7 + 1) mod 8) with 0 in Hack.
  unfold dispatch. cbn. rewrite Hst, Hty, Hack, Hseq. cbn.
  unfold raise_irrecoverableSyncError. cbn. rewrite Hst. cbn.
  eexists. split; [reflexivity|]. cbn. auto.
Qed.



(** C10: an ACK packet whose [ack_num] is neither [seqNum] nor
    [seqNum + 1], processed in a state other than ACTIVE and RESET, makes
    the dispatcher dereference the null pointer that the cast of that
    state's exit criteria to [ActiveExitCriterias] yields. *)
Theorem ack_outside_active_null_dereference (packet slipPayload : bytes)
    (d : H5.decoded) (t : H5Transport) :
  slip_decode packet = Some slipPayload ->
  h5_decode slipPayload = Some d ->
  H5.d_type d = ACK_PACKET ->
  currentState t <> STATE_ACTIVE ->
  currentState t <> STATE_RESET ->
  H5.d_ack_num d <> seqNum t ->
  H5.d_ack_num d <> seqNum t + 1 ->
  cast_Active (exitCriterias t (currentState t)) = None
  /\ processPacket packet t = Fault NullDereference [].
Proof.
  intros Hslip Hh5 Hty Hact Hres Hne Hne1.
  rewrite (processPacket_decoded _ _ _ _ Hslip Hh5).
  apply Z.eqb_neq in Hne, Hne1. apply h5_state_eqb_neq in Hres.
  unfold dispatch. cbn. rewrite Hres, Hty, Hne, Hne1. cbn.
  unfold raise_irrecoverableSyncError. cbn.
  destruct (currentState t); cbn; try (split; reflexivity); congruence.
Qed.

End Dispatch.

(** ** What the reader thread leaves untouched *)







Section Reader.

Context {codecs : Codecs}.











End Reader.

(** ** The reliable sender *)


Section Sender.

Context {codecs : Codecs}.


(** C5: while the state is not ACTIVE, [send] returns
    [NRF_ERROR_INVALID_STATE] at once: the object is unchanged (so are
    [seqNum], [ackNum] and every exit criterion) and nothing is written to
    the lower transport, whatever the other threads would do. *)
Theorem send_not_active_invalid_state (data : bytes)
    (env : list (list bytes)) (t : H5Transport) :
  currentState t <> STATE_ACTIVE ->
  send data env t = Done (NRF_ERROR_INVALID_STATE, t) [].
Proof.
  intros H. apply h5_state_eqb_neq in H.
  unfold send. rewrite H. reflexivity.
Qed.



End Sender.

Section Retransmission.

Context {codecs : Codecs}.









End Retransmission.

(** ** The receive assembler *)

Lemma processed_app (tr1 tr2 : list event) :
  processed (tr1 ++ tr2) = processed tr1 ++ processed tr2.
Proof. unfold processed. apply flat_map_app. Qed.

Lemma no_call_bind {A B : Type} (m : outcome A) (k : A -> outcome B) :
  no_call m -> (forall a, no_call (k a)) -> no_call (bind m k).
Proof.
  unfold no_call. intros Hm Hk.
  destruct m as [a tr|f tr]; cbn [trace_of bind] in *; [|exact Hm].
  specialize (Hk a).
  destruct (k a); cbn [trace_of] in *; rewrite processed_app, Hm, Hk;
    reflexivity.
Qed.

Lemma no_call_when (b : bool) (k : H5Transport -> outcome H5Transport)
    (t : H5Transport) :
  (forall t', no_call (k t')) -> no_call (when b k t).
Proof. intros Hk. destruct b; cbn; [apply Hk | reflexivity]. Qed.

Section Assembler.

Context {codecs : Codecs}.

Ltac no_call_tac :=
  repeat first
    [ reflexivity
    | apply no_call_bind
    | apply no_call_when
    | intro
    | match goal with
      | |- no_call (match ?x with _ => _ end) => destruct x
      | |- no_call (if ?x then _ else _) => destruct x
      end ].

Lemma no_call_dispatch (d : H5.decoded) (t : H5Transport) :
  no_call (dispatch d t).
Proof.
  unfold dispatch, is_pattern, link_control_uninitialized,
    link_control_initialized, link_control_active, upd_Initialized,
    raise_irrecoverableSyncError, sendControlPacket.
  no_call_tac.
Qed.

Lemma no_call_processPacket (packet : bytes) (t : H5Transport) :
  no_call (processPacket packet t).
Proof.
  unfold processPacket.
  destruct (slip_decode packet); [|reflexivity].
  destruct (h5_decode _); [apply no_call_dispatch | reflexivity].
Qed.

Lemma valid_body_app_cons (pre post : bytes) (x : Z) :
  valid_body (pre ++ x :: post) = true -> x <> 0xC0.
Proof.
  intros H. assert (F : forallb (fun b => negb (b =? 0xC0)) (pre ++ x :: post) = true).
  { destruct (pre ++ x :: post); [discriminate | exact H]. }
  rewrite forallb_app in F. apply andb_prop in F as [_ F].
  cbn in F. apply andb_prop in F as [F _].
  apply negb_true_iff, Z.eqb_neq in F. exact F.
Qed.


Lemma dataHandler_unfold (data : bytes) (t : H5Transport) :
  dataHandler data t =
    (r <- dataHandler_loop data (unprocessedData t) t ;;
     match fst r with
     | [] => ret (snd r)
     | _ :: _ => ret (set_unprocessedData (fst r) (snd r))
     end).
Proof. unfold dataHandler. destruct (unprocessedData t); reflexivity. Qed.





End Assembler.

(** ** The state machine *)


Section StateMachine.

Context {codecs : Codecs}.



End StateMachine.

(** ** Opening the transport *)

Lemma too_late (state : h5_state_t) (timeout : Z)
    (changes : list (Z * h5_state_t)) :
  forall last, timeout < last -> in_time_order last changes = true ->
    reaches_within state timeout changes = false.
Proof.
  induction changes as [|[a s] changes IH]; intros last Hl Ho; [reflexivity|].
  cbn [in_time_order] in Ho. apply andb_prop in Ho as [Ha Ho].
  apply Z.leb_le in Ha.
  change (reaches_within state timeout ((a, s) :: changes))
    with ((a <=? timeout) && h5_state_eqb s state
          || reaches_within state timeout changes).
  rewrite (IH a); [|lia|exact Ho].
  replace (a <=? timeout) with false by (symmetry; apply Z.leb_gt; lia).
  reflexivity.
Qed.


Lemma wait_for_state_reaches (state : h5_state_t) (timeout : Z)
    (changes : list (Z * h5_state_t)) :
  forall (last : Z) (t : H5Transport),
    in_time_order last changes = true ->
    h5_state_eqb (currentState (wait_for_state state timeout changes t)) state
    = h5_state_eqb (currentState t) state
      || reaches_within state timeout changes.
Proof.
  induction changes as [|[a s] changes IH]; intros last t Ho.
  - cbn. destruct (h5_state_eqb (currentState t) state) eqn:E; cbn; auto.
  - cbn [wait_for_state].
    destruct (h5_state_eqb (currentState t) state) eqn:E; [cbn; auto|].
    cbn [in_time_order] in Ho. apply andb_prop in Ho as [_ Ho].
    change (reaches_within state timeout ((a, s) :: changes))
      with ((a <=? timeout) && h5_state_eqb s state
            || reaches_within state timeout changes).
    cbn [orb].
    destruct (a <=? timeout) eqn:Ha.
    + rewrite (IH a _ Ho). reflexivity.
    + rewrite E. cbn [andb orb]. symmetry.
      apply too_late with (last := a); [apply Z.leb_gt in Ha; lia | exact Ho].
Qed.

Section Open.


End Open.

(** * Concrete runs, with the codecs modelled from the specification *)

Lemma ack_wrap_7_to_0_not_acknowledged_witness :
  exists t',
    processPacket (ack_frame 0) (set_seqNum 7 active_transport)
      = Done t' [SyncNotify]
    /\ seqNum t' = 7
    /\ irrecoverableSyncError (ecActive t') = true.
Proof.
  apply (ack_wrap_7_to_0_not_acknowledged (ack_frame 0) [0; 0; 0; 0]
           {| H5.d_payload := []; H5.d_seq_num := 0; H5.d_ack_num := 0;
              H5.d_reliable := false; H5.d_type := 0 |});
    reflexivity.
Defined.


Lemma ack_outside_active_null_dereference_witness :
  cast_Active
    (exitCriterias (set_currentState STATE_UNINITIALIZED (H5Transport_new 250))
       STATE_UNINITIALIZED) = None
  /\ processPacket (ack_frame 3)
       (set_currentState STATE_UNINITIALIZED (H5Transport_new 250))
     = Fault NullDereference [].
Proof.
  apply (ack_outside_active_null_dereference (codecs := spec_codecs)
           (ack_frame 3) [3; 0; 0; 253]
           {| H5.d_payload := []; H5.d_seq_num := 0; H5.d_ack_num := 3;
              H5.d_reliable := false; H5.d_type := 0 |});
    first [reflexivity | discriminate].
Defined.


Lemma send_not_active_invalid_state_witness :
  send [0xAA; 0xBB] [[ack_frame 1]] (H5Transport_new 250)
  = Done (NRF_ERROR_INVALID_STATE, H5Transport_new 250) [].
Proof.
  apply (send_not_active_invalid_state (codecs := spec_codecs)).
  discriminate.
Defined.







(** C7: the state UNINITIALIZED is reached by opening the transport (the
    worker leaves START, sends the reset and enters UNINITIALIZED), and an
    ACK packet with [ack_num = 1] that arrives there advances [seqNum]
    from 0 to 1 and notifies the sender, although the state is not
    ACTIVE. *)
Theorem ack_in_uninitialized_advances_seqNum :
  exists tU trU t',
    stateMachineWorker 2 [[OpenCompleted]; []]
      (startStateMachine (H5Transport_new 250)) = Done (true, tU) trU
    /\ currentState tU = STATE_UNINITIALIZED
    /\ seqNum tU = 0
    /\ processPacket (ack_frame 1) tU = Done t' [AckNotify]
    /\ currentState t' = STATE_UNINITIALIZED
    /\ seqNum t' = 1.
Proof.
  eexists. eexists. eexists.
  split; [vm_compute; reflexivity|].
  split; [reflexivity|]. split; [reflexivity|].
  split; [vm_compute; reflexivity|].
  split; reflexivity.
Qed.

(** * Further properties of the code *)

(** ** The dispatcher *)

Section Dispatcher.

Context {codecs : Codecs}.



(** The packets that the dispatcher ignores outside RESET: a packet of a
    type other than LINK_CONTROL, VENDOR_SPECIFIC and ACK; a
    VENDOR_SPECIFIC packet outside ACTIVE or without the reliable flag;
    and an ACK that repeats the current [seqNum].  Each is only counted
    as received. *)
Theorem processPacket_ignored (packet sp : bytes) (d : H5.decoded)
    (t : H5Transport) :
  slip_decode packet = Some sp ->
  h5_decode sp = Some d ->
  currentState t <> STATE_RESET ->
  (H5.d_type d <> LINK_CONTROL_PACKET
   /\ H5.d_type d <> VENDOR_SPECIFIC_PACKET /\ H5.d_type d <> ACK_PACKET)
  \/ (H5.d_type d = VENDOR_SPECIFIC_PACKET
      /\ (currentState t <> STATE_ACTIVE \/ H5.d_reliable d = false))
  \/ (H5.d_type d = ACK_PACKET /\ H5.d_ack_num d = seqNum t) ->
  processPacket packet t = Done (logPacket false t) [].
Proof.
  intros Hsp Hd Hst H. rewrite (processPacket_decoded _ _ _ _ Hsp Hd).
  apply h5_state_eqb_neq in Hst.
  unfold dispatch. cbn. rewrite Hst.
  destruct H as [(H1 & H2 & H3)|[(H1 & H2)|(H1 & H2)]].
  - apply Z.eqb_neq in H1, H2, H3. rewrite H1, H2, H3. reflexivity.
  - rewrite H1. cbn.
    destruct H2 as [H2|H2].
    + apply h5_state_eqb_neq in H2. rewrite H2. reflexivity.
    + rewrite H2.
      destruct (h5_state_eqb (currentState t) STATE_ACTIVE); reflexivity.
  - assert (H3 : (H5.d_ack_num d =? seqNum t + 1) = false)
      by (apply Z.eqb_neq; lia).
    rewrite H1. cbn. rewrite H3, H2, Z.eqb_refl. reflexivity.
Qed.



End Dispatcher.

(** ** The reliable sender, continued *)

Section Acknowledged.

Context {codecs : Codecs}.






End Acknowledged.

(** ** The actions of the state machine *)

Section Actions.

Context {codecs : Codecs}.






End Actions.

Section Handshake.

Context {codecs : Codecs}.







End Handshake.

(** ** Bringing the link up *)

Section BringUp.

Context {codecs : Codecs}.












End BringUp.

(** ** Leaving ACTIVE *)

Section LeavingActive.

Context {codecs : Codecs}.

Lemma active_wait_woken (a : activity) (acts : list activity)
    (env : environment) (t t1 : H5Transport) (tr1 : list event) :
  fulfilled STATE_ACTIVE t = false ->
  perform a t = Done t1 tr1 ->
  existsb is_SyncNotify tr1 = true ->
  fulfilled STATE_ACTIVE t1 = true ->
  active_wait ((a :: acts) :: env) t =
    Done (Some (active_next (ecActive t1)), env, t1) (SyncWait :: tr1).
Proof.
  intros Hf Hp Hn Hf1. unfold active_wait. cbn [wait_fulfilled].
  rewrite Hf. cbn [emit bind sync_wait]. rewrite Hp, Hn.
  cbn [bind fst snd].
  assert (W : wait_fulfilled STATE_ACTIVE env t1 = Done (true, env, t1) []).
  { destruct env; cbn [wait_fulfilled]; rewrite Hf1; reflexivity. }
  rewrite W. cbn [bind negb app]. unfold active_next, ret.
  destruct (syncReceived (ecActive t1) || irrecoverableSyncError (ecActive t1));
    [rewrite !app_nil_r; reflexivity|].
  destruct (active_close (ecActive t1)); [rewrite !app_nil_r; reflexivity|].
  destruct (active_ioResourceError (ecActive t1));
    rewrite !app_nil_r; reflexivity.
Qed.

Lemma action_ACTIVE_woken (a : activity) (acts : list activity)
    (env : environment) (t t1 : H5Transport) (tr1 : list event) :
  perform a (set_ecActive reset_Active (set_ackNum 0 (set_seqNum 0 t)))
    = Done t1 tr1 ->
  existsb is_SyncNotify tr1 = true ->
  fulfilled STATE_ACTIVE t1 = true ->
  action_ACTIVE ((a :: acts) :: env) t =
    Done (Some (active_next (ecActive t1)), env, t1)
         (StatusCallback CONNECTION_ACTIVE :: SyncWait :: tr1).
Proof.
  intros Hp Hn Hf1. unfold action_ACTIVE, active_entry, statusHandler.
  cbn [bind ret emit app].
  rewrite (active_wait_woken a acts env _ t1 tr1); try assumption;
    reflexivity.
Qed.

(** What the peer can do to end the ACTIVE state.  If the first packet
    after the entry is a SYNC, a reliable user frame that is not number
    0, or an ACK that carries neither 0 nor 1, the ACTIVE action returns
    RESET; the frame is not delivered and nothing is sent. *)
Theorem action_ACTIVE_left_by_peer (packet sp : bytes) (d : H5.decoded)
    (acts : list activity) (env : environment) (t : H5Transport) :
  slip_decode packet = Some sp -> h5_decode sp = Some d ->
  currentState t = STATE_ACTIVE ->
  (H5.d_type d = LINK_CONTROL_PACKET
   /\ exists rest, H5.d_payload d = syncFirstByte :: syncSecondByte :: rest)
  \/ (H5.d_type d = VENDOR_SPECIFIC_PACKET /\ H5.d_reliable d = true
      /\ H5.d_seq_num d <> 0)
  \/ (H5.d_type d = ACK_PACKET
      /\ H5.d_ack_num d <> 0 /\ H5.d_ack_num d <> 1) ->
  exists t',
    action_ACTIVE ((Incoming packet :: acts) :: env) t =
      Done (Some STATE_RESET, env, t')
           [StatusCallback CONNECTION_ACTIVE; SyncWait; SyncNotify]
    /\ seqNum t' = 0 /\ ackNum t' = 0.
Proof.
  intros Hsp Hd Hst H.
  set (t0 := set_ecActive reset_Active (set_ackNum 0 (set_seqNum 0 t))).
  assert (P : exists t1,
             processPacket packet t0 = Done t1 [SyncNotify]
             /\ syncReceived (ecActive t1) || irrecoverableSyncError (ecActive t1)
                = true
             /\ seqNum t1 = 0 /\ ackNum t1 = 0).
  { rewrite (processPacket_decoded _ _ _ _ Hsp Hd).
    unfold dispatch. cbn. rewrite Hst. cbn.
    destruct H as [(Hty & rest & Hp)|[(Hty & Hrel & Hseq)|(Hty & H0 & H1)]].
    - rewrite Hty. cbn. rewrite Hp. cbn.
      unfold link_control_active. cbn. rewrite Hst. cbn.
      eexists. split; [reflexivity|]. cbn. auto.
    - apply Z.eqb_neq in Hseq. rewrite Hty. cbn. rewrite Hrel, Hseq. cbn.
      unfold raise_irrecoverableSyncError. cbn. rewrite Hst. cbn.
      eexists. split; [reflexivity|]. cbn. auto.
    - apply Z.eqb_neq in H0, H1. rewrite Hty. cbn. rewrite H0, H1. cbn.
      unfold raise_irrecoverableSyncError. cbn. rewrite Hst. cbn.
      eexists. split; [reflexivity|]. cbn. auto. }
  destruct P as (t1 & E & Hx & S & A).
  exists t1.
  rewrite (action_ACTIVE_woken (Incoming packet) acts env t t1 [SyncNotify]);
    [|exact E|reflexivity|].
  - unfold active_next. rewrite Hx. auto.
  - unfold fulfilled. cbn [exitCriterias isFullfilled].
    rewrite <- orb_assoc, Hx. apply orb_true_r.
Qed.

(** What this side can do to end the ACTIVE state.  A [close] during the
    wait makes the ACTIVE action return START, with [runStateMachine]
    cleared, so that the worker then stops; the status
    [IO_RESOURCES_UNAVAILABLE] from the lower transport makes it return
    FAILED, after the status was passed on to the user. *)
Theorem action_ACTIVE_left_locally (acts : list activity) (env : environment)
    (t : H5Transport) :
  currentState t = STATE_ACTIVE ->
  (exists t',
     action_ACTIVE ((CloseRequested :: acts) :: env) t =
       Done (Some STATE_START, env, t')
            [StatusCallback CONNECTION_ACTIVE; SyncWait; SyncNotify]
     /\ runStateMachine t' = false
     /\ stateMachineWorker 1 env (set_currentState STATE_START t')
        = Done (false, set_currentState STATE_START t') [])
  /\ (exists t',
        action_ACTIVE ((LowerStatus IO_RESOURCES_UNAVAILABLE :: acts) :: env) t =
          Done (Some STATE_FAILED, env, t')
               [StatusCallback CONNECTION_ACTIVE; SyncWait; SyncNotify;
                StatusCallback IO_RESOURCES_UNAVAILABLE]
        /\ active_ioResourceError (ecActive t') = true).
Proof.
  intros Hst. split.
  - eexists.
    erewrite (action_ACTIVE_woken CloseRequested acts env t _ [SyncNotify]);
      [| cbn [perform]; unfold close_requested, set_close; cbn; rewrite Hst;
         cbn; reflexivity
       | reflexivity | reflexivity].
    cbn. auto.
  - eexists.
    erewrite (action_ACTIVE_woken (LowerStatus IO_RESOURCES_UNAVAILABLE) acts env
               t _ [SyncNotify; StatusCallback IO_RESOURCES_UNAVAILABLE]);
      [| cbn [perform]; unfold statusHandler, set_ioResourceError; cbn;
         rewrite Hst; cbn; reflexivity
       | reflexivity | reflexivity].
    cbn. auto.
Qed.

End LeavingActive.

(** ** Status of the lower transport, and closing *)

Section Status.

Context {codecs : Codecs}.

(** [statusHandler] passes every status on to the user.  For
    [IO_RESOURCES_UNAVAILABLE], in a state that has exit criteria, it
    first sets [ioResourceError] of the current state, which fulfils the
    criteria of that state, and wakes the worker; the sequence counters
    are not touched.  Any other status is passed on and nothing else. *)
Theorem statusHandler_effect (code : sd_rpc_app_status_t) (t : H5Transport) :
  currentState t <> STATE_FAILED -> currentState t <> STATE_UNKNOWN ->
  (code = IO_RESOURCES_UNAVAILABLE ->
   exists t',
     statusHandler code t =
       Done t' [SyncNotify; StatusCallback IO_RESOURCES_UNAVAILABLE]
     /\ fulfilled (currentState t) t' = true
     /\ currentState t' = currentState t
     /\ seqNum t' = seqNum t /\ ackNum t' = ackNum t)
  /\ (code <> IO_RESOURCES_UNAVAILABLE ->
      statusHandler code t = Done t [StatusCallback code]).
Proof.
  intros Hf Hu. split.
  - intros ->. unfold statusHandler, set_ioResourceError.
    destruct (currentState t) eqn:Hst; try congruence; cbn;
      eexists; (split; [reflexivity|]); unfold fulfilled; cbn; auto.
  - intros Hc. destruct code; try congruence; reflexivity.
Qed.

(** The states FAILED and UNKNOWN have no exit criteria: the map lookup
    yields a null pointer there, so both the status
    [IO_RESOURCES_UNAVAILABLE] and a call of [close] dereference null
    once the state machine has failed. *)
Theorem no_exit_criteria_null_dereference (t : H5Transport) :
  currentState t = STATE_FAILED \/ currentState t = STATE_UNKNOWN ->
  exitCriterias t (currentState t) = None
  /\ statusHandler IO_RESOURCES_UNAVAILABLE t = Fault NullDereference []
  /\ close_requested t = Fault NullDereference [].
Proof.
  unfold statusHandler, set_ioResourceError, close_requested, set_close.
  intros [H|H]; rewrite H; cbn; auto.
Qed.

(** In a state that has exit criteria, [close] sets the [close] flag of
    the current state, which fulfils its criteria, clears
    [runStateMachine] and wakes the worker; the worker, once its action
    returns, leaves its loop whatever the next state is. *)
Theorem close_requested_effect (t : H5Transport) :
  currentState t <> STATE_FAILED -> currentState t <> STATE_UNKNOWN ->
  exists t',
    close_requested t = Done t' [SyncNotify]
    /\ fulfilled (currentState t) t' = true
    /\ runStateMachine t' = false
    /\ currentState t' = currentState t
    /\ seqNum t' = seqNum t /\ ackNum t' = ackNum t
    /\ forall fuel env next,
         stateMachineWorker fuel env (set_currentState next t')
         = Done (false, set_currentState next t') [].
Proof.
  intros Hf Hu. unfold close_requested, set_close.
  destruct (currentState t) eqn:Hst; try congruence; cbn;
    eexists; (split; [reflexivity|]); unfold fulfilled; cbn;
    rewrite ?orb_true_r; repeat split; auto;
    intros fuel env next; destruct fuel; cbn;
    rewrite andb_false_r; reflexivity.
Qed.

(** [waitForState] reports whether the worker assigned the awaited state
    within the timeout (or the transport was in it already): the
    predicate is tested at the call and at every notification up to the
    timeout, and once more when the wait is over. *)
Theorem waitForState_result (state : h5_state_t) (timeout : Z)
    (changes : list (Z * h5_state_t)) (t : H5Transport) :
  in_time_order 0 changes = true ->
  fst (waitForState state timeout changes t)
  = h5_state_eqb (currentState t) state
    || reaches_within state timeout changes.
Proof.
  intros Ho. unfold waitForState.
  rewrite <- (wait_for_state_reaches state timeout changes 0 t Ho).
  destruct (h5_state_eqb
              (currentState (wait_for_state state timeout changes t)) state);
    reflexivity.
Qed.

End Status.

(** ** The receive assembler, continued *)

Section AssemblerMore.

Context {codecs : Codecs}.

Lemma loop_delimited (data : bytes) :
  forall (packet : bytes) (t : H5Transport),
    buffer_in_frame packet t ->
    Forall delimited_frame
      (processed (trace_of (dataHandler_loop data packet t)))
    /\ forall packet' t' tr,
         dataHandler_loop data packet t = Done (packet', t') tr ->
         buffer_in_frame packet' t'.
Proof.
  induction data as [|b data IH]; intros packet t Hok.
  { cbn. split; [constructor|]. intros ? ? ? [= <- <- <-]. exact Hok. }
  cbn [dataHandler_loop].
  destruct (b =? 0xC0) eqn:Hb.
  2:{ apply IH. intros Hc. destruct (Hok Hc) as (pre & -> & Hpre).
      exists (pre ++ [b]). split; [reflexivity|].
      unfold no_delimiter in *. rewrite forallb_app, Hpre. cbn.
      rewrite Hb. reflexivity. }
  apply Z.eqb_eq in Hb. subst b.
  destruct (c0Found t) eqn:Hc0.
  2:{ apply IH. intros _. exists []. split; reflexivity. }
  destruct (Hok Hc0) as (pre & -> & Hpre).
  destruct (Z.of_nat (length ((0xC0 :: pre) ++ [0xC0])) =? 2) eqn:Hlen.
  { apply IH. intros _. exists []. split; reflexivity. }
  assert (Hv : delimited_frame ((0xC0 :: pre) ++ [0xC0])).
  { exists pre. split; [reflexivity|].
    destruct pre; [discriminate Hlen | exact Hpre]. }
  cbn [emit bind].
  pose proof (no_call_processPacket ((0xC0 :: pre) ++ [0xC0]) t) as Hnc.
  unfold no_call in Hnc.
  destruct (processPacket ((0xC0 :: pre) ++ [0xC0]) t) as [t1 tr1|f tr1];
    cbn [trace_of] in Hnc; cbn [bind].
  - destruct (IH [] (set_c0Found false (set_unprocessedData [] t1)))
      as [IH1 IH2]; [intros H; discriminate H|].
    destruct (dataHandler_loop data []
                (set_c0Found false (set_unprocessedData [] t1)))
      as [[packet' t'] tr2|f tr2]; cbn [trace_of app] in *.
    + split.
      * change (processed (ProcessPacket ?p :: ?l)) with (p :: processed l).
        rewrite processed_app, Hnc. cbn [app]. constructor; assumption.
      * intros ? ? ? [= <- <- <-]. eapply IH2. reflexivity.
    + split; [|discriminate].
      change (processed (ProcessPacket ?p :: ?l)) with (p :: processed l).
      rewrite processed_app, Hnc. cbn [app]. constructor; assumption.
  - split; [|discriminate]. cbn [trace_of app].
    change (processed (ProcessPacket ?p :: ?l)) with (p :: processed l).
    rewrite Hnc. constructor; [assumption|constructor].
Qed.

(** Whatever bytes arrive, in whatever chunks, every packet that the
    assembler hands to [processPacket] is a delimited frame: it starts
    and ends with [0xC0] and has a non-empty body without [0xC0]. *)
Theorem assembler_passes_delimited_frames (chunks : list bytes)
    (t : H5Transport) :
  buffer_in_frame (unprocessedData t) t ->
  Forall delimited_frame (processed (trace_of (dataHandler_chunks chunks t)))
  /\ forall t' tr,
       dataHandler_chunks chunks t = Done t' tr ->
       buffer_in_frame (unprocessedData t') t'.
Proof.
  revert t. induction chunks as [|c chunks IH]; intros t Hok.
  { split; [constructor|]. cbn. intros ? ? [= <- <-]. exact Hok. }
  cbn [dataHandler_chunks]. rewrite dataHandler_unfold.
  destruct (loop_delimited c (unprocessedData t) t Hok) as [L1 L2].
  destruct (dataHandler_loop c (unprocessedData t) t)
    as [[packet' t'] tr1|f tr1]; cbn [bind fst snd trace_of] in *;
    [|split; [exact L1|discriminate]].
  specialize (L2 _ _ _ eq_refl).
  assert (E : exists t'',
             match packet' with
             | [] => ret t'
             | _ :: _ => ret (set_unprocessedData packet' t')
             end = Done t'' []
             /\ buffer_in_frame (unprocessedData t'') t'').
  { destruct packet'; eexists; (split; [reflexivity|]).
    - intros H. destruct (L2 H) as (pre & Hp & _). discriminate Hp.
    - exact L2. }
  destruct E as (t'' & -> & Hok''). cbn [bind]. rewrite app_nil_r.
  destruct (IH t'' Hok'') as [I1 I2].
  destruct (dataHandler_chunks chunks t'') as [t3 tr3|f tr3];
    cbn [trace_of] in *.
  - split; [rewrite processed_app; apply Forall_app; auto|].
    intros ? ? [= <- <-]. eapply I2. reflexivity.
  - split; [rewrite processed_app; apply Forall_app; auto|discriminate].
Qed.

(** [loop_frames], with the position of a fault made precise: when
    [processPacket] faults on a frame, what is left of the stream after
    that frame ends with [more]. *)
Lemma loop_frames_fault (data : bytes) :
  forall (more packet : bytes) (t : H5Transport) (bs : list bytes),
    in_stream packet (c0Found t) (data ++ more) bs ->
    (packet = [] -> unprocessedData t = []) ->
    match dataHandler_loop data packet t with
    | Done (packet', t') tr =>
        exists passed left,
          bs = passed ++ left /\ processed tr = map frame_of passed
          /\ in_stream packet' (c0Found t') more left
          /\ (packet' = [] -> unprocessedData t' = [])
    | Fault f tr =>
        exists passed b left rest,
          bs = passed ++ b :: left
          /\ processed tr = map frame_of (passed ++ [b])
          /\ flat_map frame_of left = rest ++ more
    end.
Proof.
  induction data as [|b data IH]; intros more packet t bs Hin Hside.
  { cbn. exists [], bs. auto. }
  cbn [dataHandler_loop]. destruct Hin as [Hval Hin].
  destruct (c0Found t) eqn:Hc0.
  - destruct Hin as (pre & post & bs' & -> & -> & Hrest).
    cbn [forallb] in Hval. apply andb_prop in Hval as [Hv Hval].
    destruct post as [|x post]; cbn [app] in Hrest.
    + injection Hrest as -> Hrest. rewrite app_nil_r in *.
      rewrite Z.eqb_refl.
      assert (Hlen : (Z.of_nat (length ((0xC0 :: pre) ++ [0xC0])) =? 2) = false).
      { apply Z.eqb_neq. rewrite length_app. cbn [length].
        destruct pre; [discriminate|]. cbn [length]. lia. }
      rewrite Hlen. cbn [emit bind].
      pose proof (no_call_processPacket ((0xC0 :: pre) ++ [0xC0]) t) as Hnc.
      unfold no_call in Hnc.
      destruct (processPacket ((0xC0 :: pre) ++ [0xC0]) t) as [t1 tr1|f tr1];
        cbn [trace_of] in Hnc; cbn [bind].
      * specialize (IH more [] (set_c0Found false (set_unprocessedData [] t1)) bs').
        destruct (dataHandler_loop data []
                    (set_c0Found false (set_unprocessedData [] t1)))
          as [[packet' t'] tr2|f tr2].
        -- destruct IH as (passed & left & -> & Hp & Hin' & Hside');
             [split; [exact Hval|cbn; auto] | reflexivity |].
           exists (pre :: passed), left. split; [reflexivity|].
           split; [|auto].
           cbn [app]. change (processed (ProcessPacket ?p :: ?l))
             with (p :: processed l).
           rewrite processed_app, Hnc, Hp. reflexivity.
        -- destruct IH as (passed & b' & left & rest & -> & Hp & Hr);
             [split; [exact Hval|cbn; auto] | reflexivity |].
           exists (pre :: passed), b', left, rest. split; [reflexivity|].
           split; [|exact Hr].
           cbn [app]. change (processed (ProcessPacket ?p :: ?l))
             with (p :: processed l).
           rewrite processed_app, Hnc, Hp. reflexivity.
      * exists [], pre, bs', data. split; [reflexivity|].
        split; [|symmetry; exact Hrest].
        cbn [app]. change (processed (ProcessPacket ?p :: ?l))
          with (p :: processed l).
        rewrite Hnc. reflexivity.
    + injection Hrest as -> Hrest.
      pose proof (valid_body_app_cons _ _ _ Hv) as Hx.
      apply Z.eqb_neq in Hx. rewrite Hx.
      specialize (IH more ((0xC0 :: pre) ++ [x]) t ((pre ++ x :: post) :: bs')).
      destruct (dataHandler_loop data ((0xC0 :: pre) ++ [x]) t)
        as [[packet' t'] tr2|f tr2]; apply IH.
      all: try (intros Hnil; destruct pre; discriminate Hnil).
      all: split; [cbn [forallb]; rewrite Hv, Hval; reflexivity|].
      all: rewrite Hc0; exists (pre ++ [x]), post, bs';
        rewrite <- app_assoc; cbn [app]; auto.
  - destruct Hin as [-> Hrest].
    destruct bs as [|b1 bs']; [discriminate Hrest|].
    cbn [flat_map frame_of app] in Hrest. injection Hrest as -> Hrest.
    rewrite Z.eqb_refl.
    specialize (IH more [0xC0] (set_c0Found true t) (b1 :: bs')).
    destruct (dataHandler_loop data [0xC0] (set_c0Found true t))
      as [[packet' t'] tr2|f tr2]; apply IH.
    all: try discriminate.
    all: split; [exact Hval|].
    all: cbn [c0Found set_c0Found]; exists [], b1, bs'.
    all: rewrite Hrest, <- app_assoc; cbn [app]; auto.
Qed.

Lemma chunks_frames_more (chunks : list bytes) :
  forall (t : H5Transport) (bs : list bytes) (more : bytes),
    in_stream (unprocessedData t) (c0Found t) (concat chunks ++ more) bs ->
    match dataHandler_chunks chunks t with
    | Done t' tr =>
        exists passed left,
          bs = passed ++ left /\ processed tr = map frame_of passed
          /\ in_stream (unprocessedData t') (c0Found t') more left
    | Fault f tr =>
        exists passed b left rest,
          bs = passed ++ b :: left
          /\ processed tr = map frame_of (passed ++ [b])
          /\ flat_map frame_of left = rest ++ more
    end.
Proof.
  induction chunks as [|c chunks IH]; intros t bs more Hin.
  - cbn in *. exists [], bs. auto.
  - cbn [dataHandler_chunks concat] in *. rewrite dataHandler_unfold.
    rewrite <- app_assoc in Hin.
    pose proof (loop_frames_fault c (concat chunks ++ more) (unprocessedData t)
                  t bs Hin (fun H => H)) as L.
    destruct (dataHandler_loop c (unprocessedData t) t)
      as [[packet' t'] tr1|f tr1]; cbn [bind fst snd].
    2:{ destruct L as (passed & b & left & rest & Hbs & Hp & Hr).
        exists passed, b, left, (rest ++ concat chunks).
        rewrite <- app_assoc. auto. }
    destruct L as (passed & left & -> & Hp & Hin' & Hside).
    assert (E : exists t'',
               match packet' with
               | [] => ret t'
               | _ :: _ => ret (set_unprocessedData packet' t')
               end = Done t'' []
               /\ unprocessedData t'' = packet'
               /\ c0Found t'' = c0Found t').
    { destruct packet'; eexists; (split; [reflexivity|]); cbn; auto. }
    destruct E as (t'' & -> & Hu & Hc). cbn [bind]. rewrite app_nil_r.
    specialize (IH t'' left more). rewrite Hu, Hc in IH. specialize (IH Hin').
    destruct (dataHandler_chunks chunks t'') as [t3 tr3|f tr3].
    + destruct IH as (passed' & left' & -> & Hp3 & Hin3).
      exists (passed ++ passed'), left'.
      rewrite processed_app, Hp, Hp3, <- map_app, app_assoc. auto.
    + destruct IH as (passed' & b & left' & rest & -> & Hp3 & Hr).
      exists (passed ++ passed'), b, left', rest.
      rewrite processed_app, Hp, Hp3, <- map_app, !app_assoc. auto.
Qed.

Lemma valid_body_snoc (pre : bytes) :
  no_delimiter pre = true -> valid_body (pre ++ [0]) = true.
Proof.
  intros H. unfold valid_body, no_delimiter in *.
  destruct (pre ++ [0]) eqn:E; [destruct pre; discriminate E|].
  rewrite <- E, forallb_app, H. reflexivity.
Qed.

Lemma forallb_valid_app (bs : list bytes) (b : bytes) :
  forallb valid_body bs = true -> valid_body b = true ->
  forallb valid_body (bs ++ [b]) = true.
Proof. intros H1 H2. rewrite forallb_app, H1. cbn. rewrite H2. reflexivity. Qed.

(** A frame that is still incomplete when the chunks run out is kept:
    fed the well-formed frames with bodies [bodies] followed by the
    beginning [0xC0 pre] of another frame, a fresh assembler passes the
    complete frames on, in order, and is left inside a frame
    ([c0Found] set) with [0xC0 pre] in [unprocessedData], to be completed
    by the chunks to come; should [processPacket] fault, it does so on
    one of the complete frames. *)
Theorem assembler_keeps_incomplete_frame (bodies : list bytes) (pre : bytes)
    (chunks : list bytes) (t : H5Transport) :
  unprocessedData t = [] ->
  c0Found t = false ->
  forallb valid_body bodies = true ->
  no_delimiter pre = true ->
  concat chunks = flat_map frame_of bodies ++ 0xC0 :: pre ->
  match dataHandler_chunks chunks t with
  | Done t' tr =>
      processed tr = map frame_of bodies
      /\ unprocessedData t' = 0xC0 :: pre /\ c0Found t' = true
  | Fault f tr =>
      exists passed b left,
        bodies = passed ++ b :: left
        /\ processed tr = map frame_of (passed ++ [b])
  end.
Proof.
  intros Hu Hc Hval Hpre Hcat.
  pose proof (chunks_frames_more chunks t (bodies ++ [pre ++ [0]]) [0; 0xC0])
    as L.
  rewrite Hu, Hc, Hcat in L.
  assert (Hin : in_stream [] false
                  ((flat_map frame_of bodies ++ 0xC0 :: pre) ++ [0; 0xC0])
                  (bodies ++ [pre ++ [0]])).
  { split; [apply forallb_valid_app; auto using valid_body_snoc|].
    split; [reflexivity|].
    rewrite flat_map_app. cbn [flat_map]. unfold frame_of at 3.
    rewrite app_nil_r, <- !app_assoc. reflexivity. }
  specialize (L Hin).
  destruct (dataHandler_chunks chunks t) as [t' tr|f tr].
  - destruct L as (passed & left & Hbs & Hp & Hv & Hs).
    destruct (c0Found t') eqn:Hc'.
    + destruct Hs as (pre' & post & bs' & -> & Hu' & Hm).
      assert (Hv' : valid_body (pre' ++ post) = true).
      { rewrite Hbs in Hin. destruct Hin as [Hin _].
        rewrite forallb_app in Hin. apply andb_prop in Hin as [_ Hin].
        cbn in Hin. apply andb_prop in Hin as [Hin _]. exact Hin. }
      destruct post as [|x post]; [discriminate Hm|].
      injection Hm as <- Hm.
      destruct post as [|y post].
      2:{ injection Hm as <- Hm. exfalso.
          apply (valid_body_app_cons (pre' ++ [0]) post 0xC0);
            [rewrite <- app_assoc; exact Hv' | reflexivity]. }
      injection Hm as Hm.
      destruct bs' as [|b' bs']; [|discriminate Hm].
      apply app_inj_tail in Hbs as [<- Hb].
      apply app_inj_tail in Hb as [<- _].
      auto.
    + destruct Hs as [_ Hm]. destruct left as [|b left]; discriminate Hm.
  - destruct L as (passed & b & left & rest & Hbs & Hp & Hr).
    destruct left as [|b' left' _] using rev_ind.
    + exfalso. destruct rest; discriminate Hr.
    + rewrite app_comm_cons, app_assoc in Hbs.
      apply app_inj_tail in Hbs as [-> _].
      exists passed, b, left'. auto.
Qed.

End AssemblerMore.

(** ** Invariants of the whole transport *)








Section Accounting.

Context {codecs : Codecs}.




Lemma keeps_changed {A : Type} (proj proj' : A -> H5Transport)
    (t : H5Transport) (o : outcome A) (a' : A -> A) :
  (forall a, outgoingPacketCount (proj' (a' a)) = outgoingPacketCount (proj a)
             /\ seqNum (proj' (a' a)) = seqNum (proj a)
             /\ ackNum (proj' (a' a)) = ackNum (proj a)) ->
  keeps proj t o ->
  keeps proj' t (x <- o ;; ret (a' x)).
Proof.
  intros H K. destruct o as [a tr|f tr]; cbn [bind ret keeps] in *; [|auto].
  rewrite app_nil_r. destruct (H a) as (HO & HS & HA).
  unfold accounted, counters_in_range in *. rewrite HO, HS, HA. exact K.
Qed.
















End Accounting.

(** ** The debugging helpers *)

Module DebugFacts.

Import Ascii String Debug HexReading.

Lemma hex_value_digit (n : Z) : 0 <= n < 16 -> hex_value (hex_digit n) = n.
Proof.
  intros H.
  destruct n as [|p|p]; [reflexivity| |lia].
  do 4 (try (destruct p as [p|p|]; [| |reflexivity])); try reflexivity; lia.
Qed.

Lemma read_hex_asHex (packet : bytes) :
  Forall (fun b => 0 <= b < 256) packet ->
  read_hex (List.length packet) (asHex packet) = packet.
Proof.
  induction 1 as [|b packet Hb _ IH]; [reflexivity|].
  cbn [asHex map fold_right List.length]. unfold hex_byte at 1.
  cbn [append read_hex]. fold (asHex packet). rewrite IH.
  rewrite !hex_value_digit.
  - f_equal. symmetry. apply Z.div_mod. lia.
  - apply Z.mod_pos_bound. lia.
  - split; [apply Z.div_pos; lia | apply Z.div_lt_upper_bound; lia].
Qed.

Lemma asHex_length (packet : bytes) :
  String.length (asHex packet) = (3 * List.length packet)%nat.
Proof.
  induction packet as [|b packet IH]; [reflexivity|].
  cbn [asHex map fold_right List.length]. unfold hex_byte at 1.
  cbn [append String.length]. fold (asHex packet). rewrite IH. lia.
Qed.

(** [asHex] prints three characters per byte (two lower-case hexadecimal
    digits and a space), and the dump determines the packet: two packets
    of bytes with the same dump are equal. *)
Theorem asHex_injective (p q : bytes) :
  Forall (fun b => 0 <= b < 256) p ->
  Forall (fun b => 0 <= b < 256) q ->
  String.length (asHex p) = (3 * List.length p)%nat
  /\ (asHex p = asHex q -> p = q).
Proof.
  intros Hp Hq. split; [apply asHex_length|]. intros E.
  assert (L : List.length p = List.length q).
  { pose proof (asHex_length p) as Lp. pose proof (asHex_length q) as Lq.
    rewrite E in Lp. lia. }
  rewrite <- (read_hex_asHex p Hp), <- (read_hex_asHex q Hq), E, L.
  reflexivity.
Qed.

Lemma version_field_zero (config : Z) : Z.shiftr (Z.land config 0x0e) 5 = 0.
Proof.
  apply Z.bits_inj'. intros n Hn.
  rewrite Z.shiftr_spec, Z.land_spec, Z.bits_0 by lia.
  replace (Z.testbit 14 (n + 5)) with false; [apply andb_false_r|].
  symmetry. apply Z.bits_above_log2; [lia|].
  change (Z.log2 14) with 3. lia.
Qed.

(** The version number that [configToString] prints is [0] for every
    configuration byte: the expression [(config & 0x0e) >> 5] vanishes.
    The data-integrity-check-type is printed as [1] as soon as any of the
    four low bits (window size or out-of-frame) is set. *)
Theorem configToString_version (config : Z) :
  exists integrity,
    configToString config =
      (" sliding-window-size:" ++ dec (Z.land config 0x07)
       ++ " out-of-frame:" ++ (if Z.testbit config 3 then "1" else "0")
       ++ " data-integrity-check-type:" ++ integrity
       ++ " version-number:0 ")%string
    /\ (integrity = "1"%string <-> Z.land config 0x0f <> 0).
Proof.
  unfold configToString. rewrite version_field_zero.
  assert (B : (Z.land config 8 =? 0) = negb (Z.testbit config 3)).
  { destruct (Z.testbit config 3) eqn:T; cbn [negb].
    - apply Z.eqb_neq. intros H.
      assert (X : Z.testbit (Z.land config 8) 3 = false)
        by (rewrite H; apply Z.bits_0).
      rewrite Z.land_spec, T in X. discriminate X.
    - apply Z.eqb_eq. apply Z.bits_inj'. intros n Hn.
      rewrite Z.land_spec, Z.bits_0.
      destruct (Z.eq_dec n 3) as [->|Hne]; [rewrite T; reflexivity|].
      replace (Z.testbit 8 n) with false; [apply andb_false_r|].
      symmetry. change 8 with (2 ^ 3). apply Z.pow2_bits_false. lia. }
  rewrite B.
  exists (if (Z.land config 15 =? 0)%Z then "0" else "1")%string.
  split.
  - destruct (Z.testbit config 3); reflexivity.
  - destruct (Z.land config 15 =? 0) eqn:E.
    + apply Z.eqb_eq in E. split; [discriminate|congruence].
    + apply Z.eqb_neq in E. tauto.
Qed.

(** [hciPacketLinkControlToString] prints nothing for a payload of fewer
    than two bytes and a description opening with a bracket otherwise,
    except for one
    input: on the two-byte payload [04 7b] (a SYNC-CONFIG-RESPONSE without
    its configuration byte) it reads [payload[2]] past the end of the
    vector.  The SYNC-CONFIG case tests the size and has no such read. *)
Theorem hciPacketLinkControlToString_range (payload : bytes) :
  ((List.length payload < 2)%nat ->
   hciPacketLinkControlToString payload = Done ""%string [])
  /\ (payload = [syncConfigRspFirstByte; syncConfigRspSecondByte] ->
      hciPacketLinkControlToString payload = Fault OutOfRange [])
  /\ ((2 <= List.length payload)%nat ->
      payload <> [syncConfigRspFirstByte; syncConfigRspSecondByte] ->
      exists s, hciPacketLinkControlToString payload
                = Done ("[" ++ s)%string []).
Proof.
  split; [|split].
  - intros H. destruct payload as [|p0 [|p1 rest]]; cbn in H; try lia;
      reflexivity.
  - intros ->. reflexivity.
  - intros H Hne. destruct payload as [|p0 [|p1 rest]]; cbn in H; try lia.
    unfold hciPacketLinkControlToString.
    destruct ((p0 =? syncConfigRspFirstByte) && (p1 =? syncConfigRspSecondByte))
      eqn:E.
    + destruct rest as [|c rest].
      * apply andb_prop in E as [E0 E1]. apply Z.eqb_eq in E0, E1.
        subst. contradiction.
      * cbn [nth_error bind ret app]. eexists. reflexivity.
    + cbn [bind ret app]. eexists. reflexivity.
Qed.

End DebugFacts.

(** * Concrete runs for the further properties *)



Lemma processPacket_ignored_witness :
  processPacket (ack_frame 0) active_transport
  = Done (logPacket false active_transport) [].
Proof.
  eapply (processPacket_ignored (codecs := spec_codecs) (ack_frame 0));
    [reflexivity|reflexivity|discriminate|].
  right. right. split; reflexivity.
Defined.









Lemma action_ACTIVE_left_by_peer_witness :
  exists t',
    action_ACTIVE [[Incoming (peer_frame 1 [0xAA])]] active_transport =
      Done (Some STATE_RESET, [], t')
           [StatusCallback CONNECTION_ACTIVE; SyncWait; SyncNotify]
    /\ seqNum t' = 0 /\ ackNum t' = 0.
Proof.
  eapply (action_ACTIVE_left_by_peer (codecs := spec_codecs)
            (peer_frame 1 [0xAA]));
    [reflexivity|reflexivity|reflexivity|].
  right. left. repeat split. discriminate.
Defined.

Lemma action_ACTIVE_left_locally_witness :
  exists t',
    action_ACTIVE [[CloseRequested]] active_transport =
      Done (Some STATE_START, [], t')
           [StatusCallback CONNECTION_ACTIVE; SyncWait; SyncNotify]
    /\ runStateMachine t' = false.
Proof.
  destruct (action_ACTIVE_left_locally (codecs := spec_codecs) [] []
              active_transport eq_refl) as [(t' & E & R & _) _].
  exists t'. split; [exact E|exact R].
Defined.

Lemma statusHandler_effect_witness :
  exists t',
    statusHandler IO_RESOURCES_UNAVAILABLE active_transport =
      Done t' [SyncNotify; StatusCallback IO_RESOURCES_UNAVAILABLE]
    /\ fulfilled STATE_ACTIVE t' = true.
Proof.
  destruct (statusHandler_effect
              IO_RESOURCES_UNAVAILABLE active_transport)
    as [H _]; [discriminate|discriminate|].
  destruct (H eq_refl) as (t' & E & F & _). exists t'.
  split; [exact E|exact F].
Defined.

Lemma no_exit_criteria_null_dereference_witness :
  exitCriterias failed_transport (currentState failed_transport) = None
  /\ statusHandler IO_RESOURCES_UNAVAILABLE failed_transport
     = Fault NullDereference []
  /\ close_requested failed_transport = Fault NullDereference [].
Proof.
  apply no_exit_criteria_null_dereference.
  left. reflexivity.
Defined.

Lemma close_requested_effect_witness :
  exists t',
    close_requested uninitialized_transport = Done t' [SyncNotify]
    /\ fulfilled STATE_UNINITIALIZED t' = true
    /\ runStateMachine t' = false.
Proof.
  destruct (close_requested_effect (codecs := spec_codecs)
              uninitialized_transport) as (t' & E & F & R & _);
    [discriminate|discriminate|].
  exists t'. split; [exact E|split; [exact F|exact R]].
Defined.

Lemma waitForState_result_witness :
  fst (waitForState STATE_ACTIVE 2000
         [(300, STATE_UNINITIALIZED); (2100, STATE_ACTIVE)]
         (H5Transport_new 250))
  = false.
Proof.
  rewrite (waitForState_result STATE_ACTIVE 2000
             [(300, STATE_UNINITIALIZED); (2100, STATE_ACTIVE)]
             (H5Transport_new 250) eq_refl).
  reflexivity.
Defined.

Lemma assembler_passes_delimited_frames_witness :
  Forall delimited_frame
    (processed (trace_of (dataHandler_chunks
                            [[7; 0xC0; 0xC0]; [1; 2; 0xC0; 9; 0xC0; 0xC0]]
                            (H5Transport_new 250)))).
Proof.
  apply (assembler_passes_delimited_frames (codecs := spec_codecs)).
  intros H. discriminate H.
Defined.

Lemma assembler_keeps_incomplete_frame_witness :
  match dataHandler_chunks [[0xC0; 1]; [2; 0xC0; 0xC0; 5]]
          (H5Transport_new 250) with
  | Done t' tr =>
      processed tr = [[0xC0; 1; 2; 0xC0]]
      /\ unprocessedData t' = [0xC0; 5] /\ c0Found t' = true
  | Fault _ _ => False
  end.
Proof.
  exact (assembler_keeps_incomplete_frame (codecs := spec_codecs) [[1; 2]] [5]
           [[0xC0; 1]; [2; 0xC0; 0xC0; 5]] (H5Transport_new 250)
           eq_refl eq_refl eq_refl eq_refl eq_refl).
Defined.

Lemma asHex_injective_witness :
  String.length (Debug.asHex [0xC0; 0x0A; 0xFF]) = 9%nat
  /\ (Debug.asHex [0xC0; 0x0A; 0xFF] = Debug.asHex [0xC0; 0x0A; 0xFF] ->
      [0xC0; 0x0A; 0xFF] = [0xC0; 0x0A; 0xFF]).
Proof.
  apply (DebugFacts.asHex_injective [0xC0; 0x0A; 0xFF] [0xC0; 0x0A; 0xFF]);
    repeat constructor; lia.
Defined.
